(** * Pull-request extraction layer: GitHubService and PRExtractor

    A shallow embedding of the GitHub adapter (services/github-service)
    and of the extraction orchestrator (template/extractors/pr-extractor),
    with the properties of their specification stated over it.

    JavaScript strings are sequences of UTF-16 code units, exceptions and
    log output are explicit: every method is a computation that yields a
    trace of events together with its outcome. *)

From Stdlib Require Import ZArith NArith List String Ascii Bool Lia.
From Stdlib Require Import DecimalString.
From Stdlib Require DecimalPos DecimalZ.
Import ListNotations.

Set Implicit Arguments.

(** ** JavaScript strings *)

Module Js.

(** A string value: its UTF-16 code units, in order. *)
Definition jsstring := list N.

(** An ASCII literal of the source, as code units. *)
Definition lit (s : string) : jsstring :=
  map N_of_ascii (list_ascii_of_string s).

(** [s.length] *)
Definition length (s : jsstring) : Z := Z.of_nat (List.length s).

(** Truthiness of a string value: every string but the empty one. *)
Definition truthy (s : jsstring) : bool :=
  match s with [] => false | _ :: _ => true end.

(** Truthiness of a possibly undefined (or null) string. *)
Definition truthy_opt (o : option jsstring) : bool :=
  match o with Some s => truthy s | None => false end.

(** [s.substring(start, end)] for integral arguments: both are clamped
    to [0, s.length] and swapped when start exceeds end. *)
Definition substring (s : jsstring) (from upto : Z) : jsstring :=
  let len := length s in
  let fs := Z.min (Z.max from 0) len in
  let fe := Z.min (Z.max upto 0) len in
  let lo := Z.min fs fe in
  let hi := Z.max fs fe in
  firstn (Z.to_nat (hi - lo)) (skipn (Z.to_nat lo) s).

(** [s.startsWith(p)] *)
Fixpoint startsWith (s p : jsstring) {struct p} : bool :=
  match p, s with
  | [], _ => true
  | _ :: _, [] => false
  | a :: p', b :: s' => N.eqb a b && startsWith s' p'
  end.

(** [s.endsWith(p)]: [p] matches at position [s.length - p.length]. *)
Definition endsWith (s p : jsstring) : bool :=
  (List.length p <=? List.length s)%nat
  && startsWith (skipn (List.length s - List.length p) s) p.

(** [s.includes(p)] *)
Fixpoint includes (s p : jsstring) : bool :=
  startsWith s p ||
  match s with
  | [] => false
  | _ :: s' => includes s' p
  end.

(** Number of positions of [s] at which [p] occurs. *)
Fixpoint occurrences (p s : jsstring) : nat :=
  match s with
  | [] => 0
  | _ :: s' => (if startsWith s p then 1 else 0) + occurrences p s'
  end.

(** [s.replace(p, r)] for a string pattern: the first occurrence only. *)
Fixpoint replace (s p r : jsstring) : jsstring :=
  if startsWith s p then r ++ skipn (List.length p) s
  else match s with
       | [] => []
       | c :: s' => c :: replace s' p r
       end.

(** [xs.join(sep)] on an array of strings. *)
Fixpoint join (sep : jsstring) (xs : list jsstring) : jsstring :=
  match xs with
  | [] => []
  | [x] => x
  | x :: rest => x ++ sep ++ join sep rest
  end.

Definition is_high_surrogate (c : N) : bool :=
  (N.leb 55296 c && N.leb c 56319)%N.   (* 0xD800 .. 0xDBFF *)

Definition is_low_surrogate (c : N) : bool :=
  (N.leb 56320 c && N.leb c 57343)%N.   (* 0xDC00 .. 0xDFFF *)

(** [Buffer.byteLength(s, 'utf8')]: one byte below 0x80, two below
    0x800, four for a surrogate pair, three otherwise (an unpaired
    surrogate is encoded as U+FFFD). *)
Fixpoint byteLength (s : jsstring) : Z :=
  match s with
  | [] => 0
  | c :: t =>
      if (c <? 128)%N then 1 + byteLength t
      else if (c <? 2048)%N then 2 + byteLength t
      else if is_high_surrogate c then
        match t with
        | d :: t' =>
            if is_low_surrogate d then 4 + byteLength t'
            else 3 + byteLength t
        | [] => 3
        end
      else 3 + byteLength t
  end.

(** [n.toString()] and [`${n}`] for an integral number. *)
Definition showZ (z : Z) : jsstring :=
  lit (NilZero.string_of_int (Z.to_int z)).

End Js.

Import Js.

Arguments lit : simpl never.
Arguments showZ : simpl never.

(** ** Errors, events and the computation monad *)

(** A thrown value: an Error object with its constructor name, its
    message and the HTTP status that request errors carry.  Two errors
    are the same object exactly when they are equal here. *)
Record JsError := mkJsError {
  err_name : jsstring;
  err_message : jsstring;
  err_status : option Z
}.

(** [new Error(msg)] *)
Definition new_Error (msg : jsstring) : JsError :=
  mkJsError (lit "Error") msg None.

(** The TypeError raised by reading property [prop] of null or undefined
    (the engine's message names which of the two it met). *)
Definition TypeError_reading (prop : string) : JsError :=
  mkJsError (lit "TypeError")
    (lit "Cannot read properties of null (reading '" ++ lit prop ++ lit "')")
    None.

(** [`${error}`]: name and message, either alone when the other is empty. *)
Definition error_toString (e : JsError) : jsstring :=
  match err_name e, err_message e with
  | [], m => m
  | n, [] => n
  | n, m => n ++ lit ": " ++ m
  end.

(** [error.status === k] *)
Definition status_is (e : JsError) (k : Z) : bool :=
  match err_status e with
  | Some s => Z.eqb s k
  | None => false
  end.

(** What a collaborator hands back: a value or a thrown error. *)
Inductive result (A : Type) : Type :=
| Ok (a : A)
| Err (e : JsError).
Arguments Ok {A} a.
Arguments Err {A} e.

Record OctokitConfig := mkOctokitConfig {
  cfg_auth : jsstring;
  cfg_baseUrl : option jsstring
}.

Inductive Level := LDebug | LInfo | LWarning | LError.

(** Second argument of a logger call.  Metadata bundles of debug and info
    calls are not kept; an error passed to the logger is, and so is the
    digest (message, status) that testAuthentication builds from one. *)
Inductive LogArg :=
| NoArg
| ErrorArg (e : JsError)
| DigestArg (message : jsstring) (status : option Z).

(** Observable steps of a run, in program order: logger calls and calls
    to the collaborators (API client, repository-name parser, storage). *)
Inductive Event :=
| Log (lvl : Level) (msg : jsstring) (arg : LogArg)
| ParseRepoName (repoName : jsstring)
| NewOctokit (cfg : OctokitConfig)
| PullsGet (owner repo : jsstring) (pull_number : option Z)
| PullsGetDiff (owner repo : jsstring) (pull_number : option Z)
| PullsListFiles (owner repo : jsstring) (pull_number : option Z)
                 (per_page page : nat)
| UserGetAuthenticated
| EnsureDirectoryExists (path : jsstring)
| FsWriteFile (path content : jsstring).

(** Outcome of a method: a returned value, a thrown error, or still
    [Running] when the iteration budget of a loop is used up. *)
Inductive outcome (A : Type) : Type :=
| Return (a : A)
| Throw (e : JsError)
| Running.
Arguments Return {A} a.
Arguments Throw {A} e.
Arguments Running {A}.

Definition M (A : Type) : Type := (list Event * outcome A)%type.

Definition ret {A} (a : A) : M A := ([], Return a).

Definition throw {A} (e : JsError) : M A := ([], Throw e).

Definition bind {A B} (m : M A) (k : A -> M B) : M B :=
  match m with
  | (t, Return a) => let (t', r) := k a in (t ++ t', r)
  | (t, Throw e) => (t, Throw e)
  | (t, Running) => (t, Running)
  end.

(** [try { m } catch (error) { handler }] *)
Definition try_catch {A} (m : M A) (handler : JsError -> M A) : M A :=
  match m with
  | (t, Throw e) => let (t', r) := handler e in (t ++ t', r)
  | other => other
  end.

Definition emit (ev : Event) : M unit := ([ev], Return tt).

Definition log (lvl : Level) (msg : jsstring) (arg : LogArg) : M unit :=
  emit (Log lvl msg arg).

(** A result computed without effects. *)
Definition lift {A} (r : result A) : M A :=
  match r with
  | Ok a => ([], Return a)
  | Err e => ([], Throw e)
  end.

(** A call to a collaborator: the call is recorded, then its result. *)
Definition request {A} (ev : Event) (r : result A) : M A :=
  bind (emit ev) (fun _ => lift r).

Declare Scope js_scope.
Delimit Scope js_scope with js.
Notation "x <- c1 ;; c2" := (bind c1 (fun x => c2))
  (at level 61, c1 at next level, right associativity) : js_scope.
Notation "c1 ;; c2" := (bind c1 (fun _ => c2))
  (at level 61, right associativity) : js_scope.
Open Scope js_scope.

Definition trace {A} (m : M A) : list Event := fst m.
Definition result_of {A} (m : M A) : outcome A := snd m.

(** ** Data model *)

(** The part of the pulls.get response that the adapter reads.  A field
    that may be null or missing in a response is an [option]; the head
    and base objects themselves are taken to be there. *)
Record OwnerData := mkOwnerData { od_login : option jsstring }.

Record RepoData := mkRepoData {
  rd_full_name : option jsstring;
  rd_name : option jsstring;
  rd_owner : option OwnerData
}.

Record BranchData := mkBranchData {
  bd_ref : jsstring;
  bd_sha : jsstring;
  bd_repo : option RepoData
}.

Record UserData := mkUserData { ud_login : option jsstring }.

Record PullData := mkPullData {
  pd_number : Z;
  pd_title : jsstring;
  pd_body : option jsstring;
  pd_state : jsstring;
  pd_user : option UserData;
  pd_head : BranchData;
  pd_base : BranchData
}.

(** One entry of a pulls.listFiles page. *)
Record FileData := mkFileData {
  fd_sha : jsstring;
  fd_filename : jsstring;
  fd_status : jsstring;
  fd_additions : Z;
  fd_deletions : Z;
  fd_changes : Z;
  fd_patch : option jsstring
}.

(** PullRequestInfo, as the object literal of getPullRequest builds it.
    Fields copied from the response without a default keep the value
    they had there, [None] included. *)
Record OwnerInfo := mkOwnerInfo { login : option jsstring }.

Record RepoInfo := mkRepoInfo {
  full_name : option jsstring;
  name : option jsstring;
  owner : OwnerInfo
}.

Record BranchInfo := mkBranchInfo {
  ref : jsstring;
  sha : jsstring;
  repo : RepoInfo
}.

Record UserInfo := mkUserInfo { user_login : jsstring }.

Record PullRequestInfo := mkPullRequestInfo {
  number : Z;
  title : jsstring;
  body : option jsstring;
  state : jsstring;
  user : UserInfo;
  head : BranchInfo;
  base : BranchInfo
}.

Record PullRequestFile := mkPullRequestFile {
  filename : jsstring;
  status : jsstring;
  additions : Z;
  deletions : Z;
  changes : Z
}.

Record PullRequestDiff := mkPullRequestDiff {
  content : jsstring;
  size : Z;
  truncated : bool
}.

(** PRData: the extraction record, owners flattened to their login. *)
Record PRRepo := mkPRRepo {
  prr_full_name : option jsstring;
  prr_name : option jsstring;
  prr_owner : option jsstring
}.

Record PRBranch := mkPRBranch {
  prb_ref : jsstring;
  prb_sha : jsstring;
  prb_repo : PRRepo
}.

Record PRData := mkPRData {
  prd_number : Z;
  prd_title : jsstring;
  prd_author : jsstring;
  prd_head : PRBranch;
  prd_base : PRBranch;
  prd_body : jsstring;
  prd_state : jsstring;
  prd_changed_files : jsstring;
  prd_changed_files_list : list PullRequestFile;
  prd_diff_file : jsstring
}.

(** The action inputs that the extractor reads; a field that is
    undefined is [None], and pullNumber is an integer when it is there. *)
Record ActionInputs := mkActionInputs {
  pullNumber : option Z;
  repoName : option jsstring;
  githubToken : option jsstring;
  githubApiUrl : option jsstring
}.

(** ** Collaborators *)

(** The user API of an Octokit instance; testAuthentication checks that
    it and its method exist before calling. *)
Record UserApi := mkUserApi {
  getAuthenticated : option (result UserData)
}.

(** An Octokit instance: the answer of each endpoint to each request.
    The pull number is the run-time value handed over, which is
    undefined ([None]) when the inputs carry none. *)
Record Octokit := mkOctokit {
  pulls_get : jsstring -> jsstring -> option Z -> result PullData;
  pulls_get_diff : jsstring -> jsstring -> option Z -> result jsstring;
  pulls_listFiles :
    jsstring -> jsstring -> option Z -> nat -> nat -> result (list FileData);
  rest_user : option UserApi
}.

(** Constants of config/constants. *)
Record Constants := mkConstants {
  API_ERROR : jsstring;          (* ERROR.GITHUB.API_ERROR *)
  MAX_DIFF_SIZE : Z;             (* TEMPLATE_CONFIG.MAX_DIFF_SIZE *)
  TEMP_DIR : jsstring;           (* PATHS.TEMP_DIR *)
  DIFF_FILE_PATTERN : jsstring   (* PATHS.DIFF_FILE_PATTERN *)
}.

(** Result of ValidationUtils.parseRepoName. *)
Record ParsedRepo := mkParsedRepo {
  parsed_owner : jsstring;
  parsed_repo : jsstring
}.

(** Functions of other modules that the two classes call. *)
Record Collaborators := mkCollaborators {
  parseRepoName : jsstring -> result ParsedRepo;
  newOctokit : OctokitConfig -> result Octokit;
  path_join : jsstring -> jsstring -> jsstring;
  ensureDirectoryExists : jsstring -> result unit;
  writeFile : jsstring -> jsstring -> result unit
}.

(** ** GitHubService *)

Record GitHubService := mkGitHubService {
  octokit : Octokit;
  svc_owner : jsstring;
  svc_repo : jsstring
}.

Record ServiceConfig := mkServiceConfig {
  token : jsstring;
  config_owner : jsstring;
  config_repo : jsstring;
  baseUrl : option jsstring
}.

(** [`${pullNumber}`] on the run-time value. *)
Definition showPull (pullNumber : option Z) : jsstring :=
  match pullNumber with
  | Some n => showZ n
  | None => lit "undefined"
  end.

Definition API_V3 : jsstring := lit "/api/v3".

(** Lines 20-28 of the constructor: the base URL handed to Octokit. *)
Definition adjustBaseUrl (url : jsstring) : jsstring :=
  if negb (endsWith url API_V3) then
    if endsWith url (lit "/") then url ++ lit "api/v3"
    else url ++ lit "/api/v3"
  else url.

Definition AUTH_GUIDANCE : jsstring := lit
" - Authentication failed. This could be due to:
1. Invalid or expired GitHub token
2. Token doesn't have required permissions (needs 'repo' scope)
3. For GitHub Enterprise: Incorrect github_api_url parameter
4. For GitHub Enterprise: Token might need to be generated from the Enterprise instance".

Definition NOT_FOUND_GUIDANCE : jsstring := lit
" - Repository or PR not found. Check:
1. Repository name format (should be 'owner/repo')
2. PR number exists
3. Token has access to the repository".

(** The messages of the errors that testAuthentication raises for a 401
    and for a 404. *)
Definition AUTHENTICATION_FAILED : jsstring := lit
"GitHub authentication failed. Please check your token and ensure it has the required permissions.".

Definition ENDPOINT_NOT_FOUND : jsstring := lit
"GitHub API endpoint not found. Please verify the github_api_url is correct for your GitHub Enterprise instance.".

Definition PER_PAGE : nat := 100.

(** Reading [o.prop] where [o] may be null or undefined. *)
Definition reading {A} (o : option A) (prop : string) : result A :=
  match o with
  | Some a => Ok a
  | None => Err (TypeError_reading prop)
  end.

(** [data.<branch>.repo.full_name], [.name], [.owner.login], evaluated
    in that order. *)
Definition readRepo (b : BranchData) : result RepoInfo :=
  match reading (bd_repo b) "full_name" with
  | Err e => Err e
  | Ok r =>
      match reading (rd_owner r) "login" with
      | Err e => Err e
      | Ok o => Ok (mkRepoInfo (rd_full_name r) (rd_name r)
                               (mkOwnerInfo (od_login o)))
      end
  end.

(** [data.user?.login || 'unknown'] *)
Definition authorLogin (u : option UserData) : jsstring :=
  match u with
  | Some d =>
      match ud_login d with
      | Some l => if truthy l then l else lit "unknown"
      | None => lit "unknown"
      end
  | None => lit "unknown"
  end.

(** The object literal returned by getPullRequest (lines 170-198). *)
Definition toPullRequestInfo (data : PullData) : result PullRequestInfo :=
  match readRepo (pd_head data) with
  | Err e => Err e
  | Ok headRepo =>
      match readRepo (pd_base data) with
      | Err e => Err e
      | Ok baseRepo =>
          Ok (mkPullRequestInfo
                (pd_number data) (pd_title data) (pd_body data)
                (pd_state data)
                (mkUserInfo (authorLogin (pd_user data)))
                (mkBranchInfo (bd_ref (pd_head data)) (bd_sha (pd_head data))
                              headRepo)
                (mkBranchInfo (bd_ref (pd_base data)) (bd_sha (pd_base data))
                              baseRepo))
      end
  end.

(** The callback of [data.map] in getPullRequestFiles. *)
Definition toPullRequestFile (file : FileData) : PullRequestFile :=
  mkPullRequestFile (fd_filename file) (fd_status file) (fd_additions file)
                    (fd_deletions file) (fd_changes file).

(** The record built by getPullRequestDiff from the response text. *)
Definition toPullRequestDiff (maxDiffSize : Z) (text : jsstring)
  : PullRequestDiff :=
  let size := byteLength text in
  let truncated := Z.ltb maxDiffSize size in
  mkPullRequestDiff
    (if truncated then substring text 0 maxDiffSize else text)
    size truncated.

Section Service.

Variable K : Constants.
Variable env : Collaborators.

(** Lines 17-43 of the constructor: the Octokit configuration. *)
Definition buildOctokitConfig (config : ServiceConfig) : M OctokitConfig :=
  match baseUrl config with
  | Some url =>
      if truthy url then
        let adjusted := adjustBaseUrl url in
        (if negb (endsWith url API_V3)
         then log LDebug (lit "Adjusted GitHub API URL to include /api/v3")
                  NoArg
         else ret tt) ;;
        log LDebug (lit "Using custom GitHub API URL") NoArg ;;
        ret (mkOctokitConfig (token config) (Some adjusted))
      else
        log LDebug (lit "Using default GitHub.com API") NoArg ;;
        ret (mkOctokitConfig (token config) None)
  | None =>
      log LDebug (lit "Using default GitHub.com API") NoArg ;;
      ret (mkOctokitConfig (token config) None)
  end.

(** [new GitHubService(config)] *)
Definition new_GitHubService (config : ServiceConfig) : M GitHubService :=
  try_catch
    (octokitConfig <- buildOctokitConfig config ;;
     log LDebug (lit "GitHub token info") NoArg ;;
     log LDebug (lit "Creating Octokit instance with config") NoArg ;;
     client <-
       try_catch
         (o <- request (NewOctokit octokitConfig)
                       (newOctokit env octokitConfig) ;;
          log LDebug (lit "Octokit instance created successfully") NoArg ;;
          ret o)
         (fun octokitError =>
            log LError (lit "Failed to create Octokit instance")
                (ErrorArg octokitError) ;;
            throw (new_Error
                     (lit "Failed to initialize GitHub API client: "
                      ++ error_toString octokitError))) ;;
     log LDebug (lit "GitHubService initialized successfully") NoArg ;;
     ret (mkGitHubService client (config_owner config) (config_repo config)))
    (fun error =>
       log LError (lit "Failed to initialize GitHubService")
           (ErrorArg error) ;;
       throw error).

(** [testAuthentication()] *)
Definition testAuthentication (svc : GitHubService) : M unit :=
  try_catch
    (log LDebug
         (lit "Testing GitHub authentication and API connectivity") NoArg ;;
     userApi <-
       match rest_user (octokit svc) with
       | None =>
           throw (new_Error
             (lit "GitHub user API is not available on this Octokit instance"))
       | Some u => ret u
       end ;;
     answer <-
       match getAuthenticated userApi with
       | None =>
           throw (new_Error
             (lit "getAuthenticated method is not available on user API"))
       | Some a => ret a
       end ;;
     _ <- request UserGetAuthenticated answer ;;
     log LDebug (lit "Authentication successful") NoArg)
    (fun error =>
       log LError (lit "Authentication test failed")
           (DigestArg (err_message error) (err_status error)) ;;
       if status_is error 401 then
         throw (new_Error AUTHENTICATION_FAILED)
       else if status_is error 404 then
         throw (new_Error ENDPOINT_NOT_FOUND)
       else
         throw (new_Error
                  (lit "GitHub API connectivity test failed: "
                   ++ err_message error))).

(** [getPullRequest(pullNumber)] *)
Definition getPullRequest (svc : GitHubService) (pullNumber : option Z)
  : M PullRequestInfo :=
  try_catch
    (log LDebug
         (lit "Fetching PR " ++ showPull pullNumber ++ lit " from "
          ++ svc_owner svc ++ lit "/" ++ svc_repo svc) NoArg ;;
     log LDebug (lit "Octokit instance check") NoArg ;;
     data <- request (PullsGet (svc_owner svc) (svc_repo svc) pullNumber)
               (pulls_get (octokit svc) (svc_owner svc) (svc_repo svc)
                          pullNumber) ;;
     lift (toPullRequestInfo data))
    (fun error =>
       let errorMessage :=
         API_ERROR K ++ lit ": Failed to fetch PR " ++ showPull pullNumber in
       (if status_is error 401 then
          log LError (errorMessage ++ AUTH_GUIDANCE) (ErrorArg error)
        else if status_is error 404 then
          log LError (errorMessage ++ NOT_FOUND_GUIDANCE) (ErrorArg error)
        else
          log LError errorMessage (ErrorArg error)) ;;
       throw error).

(** The [while (true)] loop of getPullRequestFiles, entered with the
    current [page] and the files pushed so far; [fuel] bounds the number
    of iterations.  It yields the files and the last page number. *)
Fixpoint fetchPages (fuel : nat) (svc : GitHubService)
         (pullNumber : option Z) (page : nat)
         (allFiles : list PullRequestFile)
  : M (list PullRequestFile * nat) :=
  match fuel with
  | O => ([], Running)
  | S fuel' =>
      log LDebug (lit "Fetching PR files page " ++ showZ (Z.of_nat page))
          NoArg ;;
      data <- request
                (PullsListFiles (svc_owner svc) (svc_repo svc) pullNumber
                                PER_PAGE page)
                (pulls_listFiles (octokit svc) (svc_owner svc)
                                 (svc_repo svc) pullNumber PER_PAGE page) ;;
      let pageFiles := map toPullRequestFile data in
      let allFiles' := allFiles ++ pageFiles in
      log LDebug
          (lit "Fetched " ++ showZ (Z.of_nat (List.length pageFiles))
           ++ lit " files from page " ++ showZ (Z.of_nat page)) NoArg ;;
      if (List.length data <? PER_PAGE)%nat then ret (allFiles', page)
      else fetchPages fuel' svc pullNumber (S page) allFiles'
  end.

(** [getPullRequestFiles(pullNumber)] *)
Definition getPullRequestFiles (fuel : nat) (svc : GitHubService)
           (pullNumber : option Z) : M (list PullRequestFile) :=
  try_catch
    (log LDebug (lit "Fetching files for PR " ++ showPull pullNumber)
         NoArg ;;
     fetched <- fetchPages fuel svc pullNumber 1 [] ;;
     log LInfo (lit "Successfully fetched all PR files") NoArg ;;
     ret (fst fetched))
    (fun error =>
       log LError (API_ERROR K ++ lit ": Failed to fetch PR files")
           (ErrorArg error) ;;
       throw error).

(** [getPullRequestDiff(pullNumber)] *)
Definition getPullRequestDiff (svc : GitHubService) (pullNumber : option Z)
  : M PullRequestDiff :=
  try_catch
    (log LDebug (lit "Fetching diff for PR " ++ showPull pullNumber)
         NoArg ;;
     data <- request
               (PullsGetDiff (svc_owner svc) (svc_repo svc) pullNumber)
               (pulls_get_diff (octokit svc) (svc_owner svc) (svc_repo svc)
                               pullNumber) ;;
     ret (toPullRequestDiff (MAX_DIFF_SIZE K) data))
    (fun error =>
       log LError (API_ERROR K ++ lit ": Failed to fetch PR diff")
           (ErrorArg error) ;;
       throw error).

End Service.

(** ** PRExtractor *)

Record PRExtractor := mkPRExtractor {
  githubService : option GitHubService
}.

(** Truthiness of a possibly undefined number. *)
Definition truthy_num (o : option Z) : bool :=
  match o with
  | Some n => negb (Z.eqb n 0)
  | None => false
  end.

(** [inputs.pullNumber > 0] *)
Definition positive_num (o : option Z) : bool :=
  match o with
  | Some n => Z.ltb 0 n
  | None => false
  end.

(** [shouldExtract(inputs)] *)
Definition shouldExtract (inputs : ActionInputs) : bool :=
  truthy_num (pullNumber inputs) && positive_num (pullNumber inputs)
  && truthy_opt (repoName inputs) && truthy_opt (githubToken inputs).

(** [prData.body || ''] *)
Definition bodyOrEmpty (b : option jsstring) : jsstring :=
  match b with
  | Some s => if truthy s then s else lit ""
  | None => lit ""
  end.

Definition flattenBranch (b : BranchInfo) : PRBranch :=
  mkPRBranch (ref b) (sha b)
    (mkPRRepo (full_name (repo b)) (name (repo b)) (login (owner (repo b)))).

(** The record assembled by performExtraction (lines 89-116). *)
Definition assemble (prData : PullRequestInfo) (files : list PullRequestFile)
           (diffFilePath : jsstring) : PRData :=
  mkPRData (number prData) (title prData) (user_login (user prData))
           (flattenBranch (head prData)) (flattenBranch (base prData))
           (bodyOrEmpty (body prData)) (state prData)
           (join (lit "
") (map filename files))
           files diffFilePath.

Section Extractor.

Variable K : Constants.
Variable env : Collaborators.

(** [PRExtractor.create(inputs)] *)
Definition create (inputs : ActionInputs) : M PRExtractor :=
  configured <-
    match repoName inputs, githubToken inputs with
    | Some rn, Some tk =>
        if truthy rn && truthy tk then
          try_catch
            (repoInfo <- request (ParseRepoName rn) (parseRepoName env rn) ;;
             log LDebug (lit "Creating GitHubService with config") NoArg ;;
             svc <- new_GitHubService env
                      (mkServiceConfig tk (parsed_owner repoInfo)
                                       (parsed_repo repoInfo)
                                       (githubApiUrl inputs)) ;;
             log LDebug
                 (lit "PRExtractor created with pre-configured GitHubService")
                 NoArg ;;
             ret (Some (mkPRExtractor (Some svc))))
            (fun error =>
               log LDebug
                   (lit "Failed to create pre-configured GitHubService, will create lazily")
                   NoArg ;;
               ret None)
        else ret None
    | _, _ => ret None
    end ;;
  match configured with
  | Some extractor => ret extractor
  | None =>
      log LDebug
          (lit "PRExtractor created without GitHubService (will be created lazily)")
          NoArg ;;
      ret (mkPRExtractor None)
  end.

(** [writeDiffFile(pullNumber, githubService)] *)
Definition writeDiffFile (pullNumber : option Z) (svc : GitHubService)
  : M jsstring :=
  try_catch
    (diff <- getPullRequestDiff K svc pullNumber ;;
     (if truncated diff
      then log LWarning (lit "PR diff was truncated due to size") NoArg
      else ret tt) ;;
     numberText <- lift (match pullNumber with
                         | Some n => Ok (showZ n)
                         | None => Err (TypeError_reading "toString")
                         end) ;;
     let diffFileName :=
       replace (DIFF_FILE_PATTERN K) (lit "{pullNumber}") numberText in
     let diffFilePath := path_join env (TEMP_DIR K) diffFileName in
     request (EnsureDirectoryExists (TEMP_DIR K))
             (ensureDirectoryExists env (TEMP_DIR K)) ;;
     request (FsWriteFile diffFilePath (content diff))
             (writeFile env diffFilePath (content diff)) ;;
     log LDebug (lit "Diff file written") NoArg ;;
     ret diffFilePath)
    (fun error =>
       log LError (lit "Failed to write diff file") (ErrorArg error) ;;
       throw error).

(** [performExtraction(inputs)]; [fuel] bounds the paging loop. *)
Definition performExtraction (fuel : nat) (extractor : PRExtractor)
           (inputs : ActionInputs) : M PRData :=
  let pullNumber := pullNumber inputs in
  match githubService extractor with
  | None => throw (new_Error (lit "GitHubService not provided"))
  | Some svc =>
      prData <- getPullRequest K svc pullNumber ;;
      files <- getPullRequestFiles K fuel svc pullNumber ;;
      diffFilePath <- writeDiffFile pullNumber svc ;;
      let extractedData := assemble prData files diffFilePath in
      log LInfo (lit "PR data extraction completed") NoArg ;;
      ret extractedData
  end.

End Extractor.

(** ** Reading traces *)

(** The page numbers asked of pulls.listFiles, in request order. *)
Definition requested_pages (t : list Event) : list nat :=
  flat_map (fun ev => match ev with
                      | PullsListFiles _ _ _ _ page => [page]
                      | _ => []
                      end) t.

(** The calls made to collaborators, in order: every event but the
    logger calls. *)
Definition calls (t : list Event) : list Event :=
  filter (fun ev => match ev with Log _ _ _ => false | _ => true end) t.

(** What was passed to the logger at error level, in order. *)
Definition error_logs (t : list Event) : list (jsstring * LogArg) :=
  flat_map (fun ev => match ev with
                      | Log LError msg arg => [(msg, arg)]
                      | _ => []
                      end) t.

(** The entries of page [p] of a listing, as getPullRequestFiles maps
    them. *)
Definition pageFiles (pages : nat -> list FileData) (p : nat)
  : list PullRequestFile :=
  map toPullRequestFile (pages p).

(** The text that the catch block of getPullRequest logs for [error]. *)
Definition fetchFailureText (K : Constants) (pn : option Z) : jsstring :=
  API_ERROR K ++ lit ": Failed to fetch PR " ++ showPull pn.

Definition fetchFailureLog (K : Constants) (pn : option Z) (e : JsError)
  : jsstring :=
  if status_is e 401 then fetchFailureText K pn ++ AUTH_GUIDANCE
  else if status_is e 404 then fetchFailureText K pn ++ NOT_FOUND_GUIDANCE
  else fetchFailureText K pn.

(** ** Sample environments *)

Definition noUserApi_client
           (meta : result PullData) (diff : result jsstring)
           (pages : nat -> result (list FileData)) : Octokit :=
  mkOctokit (fun _ _ _ => meta) (fun _ _ _ => diff)
            (fun _ _ _ _ page => pages page) None.

Definition sample_repo (full short who : string) : RepoData :=
  mkRepoData (Some (lit full)) (Some (lit short))
             (Some (mkOwnerData (Some (lit who)))).

Definition sample_pull : PullData :=
  mkPullData 42 (lit "Fix bug") None (lit "open")
             (Some (mkUserData (Some (lit "alice"))))
             (mkBranchData (lit "fix") (lit "abc123")
                           (Some (sample_repo "o/r" "r" "o")))
             (mkBranchData (lit "main") (lit "def456")
                           (Some (sample_repo "o/r" "r" "o"))).

Definition sample_file (path : string) : FileData :=
  mkFileData (lit "0f3a") (lit path) (lit "modified") 3 1 4 None.

Definition sample_service (client : Octokit) : GitHubService :=
  mkGitHubService client (lit "o") (lit "r").

Definition sample_constants (maxDiffSize : Z) : Constants :=
  mkConstants (lit "GitHub API error") maxDiffSize (lit "/tmp/augment")
              (lit "pr-{pullNumber}.diff").

(** Three times U+00E9: three code units, six bytes of UTF-8. *)
Definition accented_diff : jsstring := [233; 233; 233]%N.

Definition accented_client : Octokit :=
  noUserApi_client (Ok sample_pull) (Ok accented_diff) (fun _ => Ok []).

Definition sample_env (client : result Octokit) : Collaborators :=
  mkCollaborators
    (fun _ => Ok (mkParsedRepo (lit "o") (lit "r")))
    (fun _ => client)
    (fun dir file => dir ++ lit "/" ++ file)
    (fun _ => Ok tt)
    (fun _ _ => Ok tt).

Definition enterprise_config (url : string) : ServiceConfig :=
  mkServiceConfig (lit "ghp_0123") (lit "o") (lit "r") (Some (lit url)).

(** A first page of exactly 100 entries, then a last page of three. *)
Definition two_pages (page : nat) : list FileData :=
  if (page =? 1)%nat then repeat (sample_file "a.ts") 100
  else repeat (sample_file "b.ts") 3.

Definition two_page_client : Octokit :=
  noUserApi_client (Ok sample_pull) (Ok accented_diff)
                   (fun page => Ok (two_pages page)).

(** Request errors as the API client raises them. *)
Definition unauthorized : JsError :=
  mkJsError (lit "HttpError") (lit "Bad credentials") (Some 401%Z).

Definition not_found : JsError :=
  mkJsError (lit "HttpError") (lit "Not Found") (Some 404%Z).

Definition failing_client (e : JsError) : Octokit :=
  mkOctokit (fun _ _ _ => Err e) (fun _ _ _ => Err e)
            (fun _ _ _ _ _ => Err e)
            (Some (mkUserApi (Some (Err e)))).

(** A response whose head repository has neither full_name nor name. *)
Definition nameless_pull : PullData :=
  mkPullData 42 (lit "Fix bug") None (lit "open")
             (Some (mkUserData (Some (lit "alice"))))
             (mkBranchData (lit "fix") (lit "abc123")
                (Some (mkRepoData None None
                         (Some (mkOwnerData (Some (lit "o")))))))
             (mkBranchData (lit "main") (lit "def456")
                           (Some (sample_repo "o/r" "r" "o"))).

Definition nameless_client : Octokit :=
  noUserApi_client (Ok nameless_pull) (Ok accented_diff) (fun _ => Ok []).

(** A response whose head repository is null (the fork was deleted). *)
Definition orphan_pull : PullData :=
  mkPullData 42 (lit "Fix bug") None (lit "open") None
             (mkBranchData (lit "fix") (lit "abc123") None)
             (mkBranchData (lit "main") (lit "def456")
                           (Some (sample_repo "o/r" "r" "o"))).

Definition orphan_client : Octokit :=
  noUserApi_client (Ok orphan_pull) (Ok accented_diff) (fun _ => Ok []).

(** A listing of two files on a single page. *)
Definition short_client : Octokit :=
  noUserApi_client (Ok sample_pull) (Ok (lit "diff --git a/a.ts b/a.ts"))
                   (fun _ => Ok [sample_file "a.ts"; sample_file "b.ts"]).

Definition sample_inputs : ActionInputs :=
  mkActionInputs (Some 42%Z) (Some (lit "o/r")) (Some (lit "ghp_0123")) None.

(** ** Kind of token (constructor, lines 47-51) *)

(** The chain of [startsWith] tests that names the kind of token. *)
Definition tokenType (token : jsstring) : jsstring :=
  if startsWith token (lit "ghp_") then lit "personal_access_token"
  else if startsWith token (lit "ghs_") then lit "server_to_server_token"
  else if startsWith token (lit "gho_") then lit "oauth_token"
  else if startsWith token (lit "ghu_") then lit "user_access_token"
  else if startsWith token (lit "github_pat_") then lit "fine_grained_token"
  else lit "unknown".

(** ** A listing served in pages *)

(** Page [page] (counted from 1) of the listing [all] as an API serves it
    under [per_page]: the entries from position per_page * (page - 1)
    on, at most per_page of them. *)
Definition servedPage (per_page : nat) (all : list FileData) (page : nat)
  : list FileData :=
  firstn per_page (skipn (per_page * (page - 1)) all).

(** The placeholder of PATHS.DIFF_FILE_PATTERN. *)
Definition PLACEHOLDER : jsstring := lit "{pullNumber}".

(** The file name that writeDiffFile derives from the pull number
    (line 138). *)
Definition diffFileName (K : Constants) (n : Z) : jsstring :=
  replace (DIFF_FILE_PATTERN K) (lit "{pullNumber}") (showZ n).

(** Calls to the file storage, and requests for the diff. *)
Definition is_storage_call (ev : Event) : bool :=
  match ev with
  | EnsureDirectoryExists _ | FsWriteFile _ _ => true
  | _ => false
  end.

Definition is_diff_request (ev : Event) : bool :=
  match ev with
  | PullsGetDiff _ _ _ => true
  | _ => false
  end.

Definition is_listing_request (ev : Event) : bool :=
  match ev with
  | PullsListFiles _ _ _ _ _ => true
  | _ => false
  end.

(** More sample environments. *)

Definition listing_client (all : list FileData) : Octokit :=
  mkOctokit (fun _ _ _ => Ok sample_pull)
            (fun _ _ _ => Ok (lit "diff --git a/a.ts b/a.ts"))
            (fun _ _ _ per_page page => Ok (servedPage per_page all page))
            None.

(** Every page is full, whatever its number. *)
Definition endless_client : Octokit :=
  noUserApi_client (Ok sample_pull) (Ok accented_diff)
                   (fun _ => Ok (repeat (sample_file "a.ts") 100)).

Definition signed_in_client : Octokit :=
  mkOctokit (fun _ _ _ => Ok sample_pull) (fun _ _ _ => Ok accented_diff)
            (fun _ _ _ _ _ => Ok [])
            (Some (mkUserApi (Some (Ok (mkUserData (Some (lit "alice"))))))).

(** Storage whose directory creation fails. *)
Definition readonly_env (client : result Octokit) (e : JsError)
  : Collaborators :=
  mkCollaborators
    (fun _ => Ok (mkParsedRepo (lit "o") (lit "r")))
    (fun _ => client)
    (fun dir file => dir ++ lit "/" ++ file)
    (fun _ => Err e)
    (fun _ _ => Ok tt).

(** A repository-name parser that rejects its input. *)
Definition unparsed_env (e : JsError) : Collaborators :=
  mkCollaborators
    (fun _ => Err e)
    (fun _ => Ok short_client)
    (fun dir file => dir ++ lit "/" ++ file)
    (fun _ => Ok tt)
    (fun _ _ => Ok tt).

(** A response whose user is null (the account was deleted), and one
    whose user has no login. *)
Definition ghost_pull : PullData :=
  mkPullData 42 (lit "Fix bug") None (lit "open") None
             (mkBranchData (lit "fix") (lit "abc123")
                           (Some (sample_repo "o/r" "r" "o")))
             (mkBranchData (lit "main") (lit "def456")
                           (Some (sample_repo "o/r" "r" "o"))).

Definition ghost_client : Octokit :=
  noUserApi_client (Ok ghost_pull) (Ok accented_diff) (fun _ => Ok []).

Definition anonymous_pull : PullData :=
  mkPullData 42 (lit "Fix bug") None (lit "open")
             (Some (mkUserData None))
             (mkBranchData (lit "fix") (lit "abc123")
                           (Some (sample_repo "o/r" "r" "o")))
             (mkBranchData (lit "main") (lit "def456")
                           (Some (sample_repo "o/r" "r" "o"))).

Definition anonymous_client : Octokit :=
  noUserApi_client (Ok anonymous_pull) (Ok accented_diff) (fun _ => Ok []).

(** * Properties *)

Local Open Scope Z_scope.

(** ** Traces of composed computations *)

Lemma trace_bind {A B} (m : M A) (k : A -> M B) :
  trace (bind m k)
  = trace m ++ match result_of m with
               | Return a => trace (k a)
               | _ => []
               end.
Proof.
  destruct m as [t [a|e|]]; cbn; try (now rewrite app_nil_r).
  now destruct (k a).
Qed.

Lemma trace_try_catch {A} (m : M A) (h : JsError -> M A) :
  trace (try_catch m h)
  = trace m ++ match result_of m with
               | Throw e => trace (h e)
               | _ => []
               end.
Proof.
  destruct m as [t [a|e|]]; cbn; try (now rewrite app_nil_r).
  now destruct (h e).
Qed.

Lemma result_bind {A B} (m : M A) (k : A -> M B) (a : A) :
  result_of m = Return a -> result_of (bind m k) = result_of (k a).
Proof.
  destruct m as [t r]. cbn. intros ->. now destruct (k a).
Qed.

Lemma in_trace_bind_l {A B} (m : M A) (k : A -> M B) ev :
  In ev (trace m) -> In ev (trace (bind m k)).
Proof. intros H. rewrite trace_bind. apply in_or_app. now left. Qed.

Lemma in_trace_bind_r {A B} (m : M A) (k : A -> M B) a ev :
  result_of m = Return a -> In ev (trace (k a)) -> In ev (trace (bind m k)).
Proof.
  intros Hm H. rewrite trace_bind, Hm. apply in_or_app. now right.
Qed.

Lemma in_trace_try {A} (m : M A) (h : JsError -> M A) ev :
  In ev (trace m) -> In ev (trace (try_catch m h)).
Proof. intros H. rewrite trace_try_catch. apply in_or_app. now left. Qed.

Lemma bind_emit {B} ev (k : unit -> M B) :
  bind (emit ev) k = (ev :: trace (k tt), result_of (k tt)).
Proof. unfold bind, emit. now destruct (k tt). Qed.

Lemma bind_request_ok {A B} ev (a : A) (k : A -> M B) :
  bind (request ev (Ok a)) k = (ev :: trace (k a), result_of (k a)).
Proof. unfold request, bind, emit, lift. now destruct (k a). Qed.

Lemma bind_request_err {A B} ev e (k : A -> M B) :
  bind (request ev (@Err A e)) k = ([ev], Throw e).
Proof. reflexivity. Qed.

Lemma bind_ret {A B} (a : A) (k : A -> M B) : bind (ret a) k = k a.
Proof. unfold bind, ret. now destruct (k a). Qed.

Lemma bind_return {A B} (m : M A) (k : A -> M B) a :
  result_of m = Return a ->
  bind m k = (trace m ++ trace (k a), result_of (k a)).
Proof. destruct m as [t r]. cbn. intros ->. now destruct (k a). Qed.

Lemma bind_throw {A B} (m : M A) (k : A -> M B) e :
  result_of m = Throw e -> bind m k = (trace m, Throw e).
Proof. destruct m as [t r]. cbn. now intros ->. Qed.

Lemma try_catch_return {A} (m : M A) (h : JsError -> M A) a :
  result_of m = Return a -> try_catch m h = m.
Proof. destruct m as [t r]. cbn. now intros ->. Qed.

Lemma try_catch_throw {A} (m : M A) (h : JsError -> M A) e :
  result_of m = Throw e ->
  try_catch m h = (trace m ++ trace (h e), result_of (h e)).
Proof. destruct m as [t r]. cbn. intros ->. now destruct (h e). Qed.

Lemma requested_pages_app t1 t2 :
  requested_pages (t1 ++ t2) = requested_pages t1 ++ requested_pages t2.
Proof. apply flat_map_app. Qed.

Lemma calls_app t1 t2 : calls (t1 ++ t2) = calls t1 ++ calls t2.
Proof. apply filter_app. Qed.

Lemma error_logs_app t1 t2 :
  error_logs (t1 ++ t2) = error_logs t1 ++ error_logs t2.
Proof. apply flat_map_app. Qed.

Lemma result_bind_inv {A B} (m : M A) (k : A -> M B) b :
  result_of (bind m k) = Return b ->
  exists a, result_of m = Return a /\ result_of (k a) = Return b.
Proof.
  destruct m as [t [a|e|]]; cbn; try discriminate.
  intros H. exists a. split; [reflexivity|]. now destruct (k a).
Qed.

(** ** Strings *)

Lemma length_nonneg (s : jsstring) : 0 <= length s.
Proof. unfold length. lia. Qed.

Lemma substring_prefix_length (s : jsstring) (m : Z) :
  length (substring s 0 m) = Z.min (Z.max m 0) (length s).
Proof.
  unfold substring.
  pose proof (length_nonneg s) as Hs.
  replace (Z.min (Z.max 0 0) (length s)) with 0 by lia.
  replace (Z.min 0 (Z.min (Z.max m 0) (length s))) with 0 by lia.
  replace (Z.max 0 (Z.min (Z.max m 0) (length s)) - 0)
    with (Z.min (Z.max m 0) (length s)) by lia.
  cbn [Z.to_nat skipn].
  unfold length in *. rewrite length_firstn. lia.
Qed.

Lemma byteLength_single_byte (s : jsstring) :
  Forall (fun c => (c < 128)%N) s -> byteLength s = length s.
Proof.
  induction 1 as [|c t Hc _ IH].
  - reflexivity.
  - cbn [byteLength]. apply N.ltb_lt in Hc. rewrite Hc, IH.
    unfold length. cbn [List.length]. lia.
Qed.

(** The UTF-8 length is never below the number of code units, so a text
    can exceed a byte limit while holding fewer code units than it. *)
Lemma length_le_byteLength (s : jsstring) : length s <= byteLength s.
Proof.
  assert (H : forall n t, (List.length t <= n)%nat -> length t <= byteLength t).
  { induction n as [|n IH]; intros t Hn.
    - destruct t; [cbn; lia | cbn in Hn; lia].
    - destruct t as [|c t]; [cbn; lia|].
      cbn [List.length] in Hn.
      assert (Ht : length t <= byteLength t) by (apply IH; lia).
      assert (Hl : length (c :: t) = 1 + length t)
        by (unfold length; cbn [List.length]; lia).
      rewrite Hl. cbn [byteLength].
      destruct (c <? 128)%N; [lia|].
      destruct (c <? 2048)%N; [lia|].
      destruct (is_high_surrogate c); [|lia].
      destruct t as [|d t']; [unfold length; cbn; lia|].
      destruct (is_low_surrogate d); [|lia].
      assert (Ht' : length t' <= byteLength t')
        by (apply IH; cbn [List.length] in Hn; lia).
      unfold length in *. cbn [List.length] in *. lia. }
  apply (H (List.length s)). lia.
Qed.

(** ** C1: truncation of the diff *)

Lemma getPullRequestDiff_returns K svc n text :
  pulls_get_diff (octokit svc) (svc_owner svc) (svc_repo svc) n = Ok text ->
  result_of (getPullRequestDiff K svc n)
  = Return (toPullRequestDiff (MAX_DIFF_SIZE K) text).
Proof.
  intros H. unfold getPullRequestDiff, request. rewrite H. reflexivity.
Qed.

(** C1, as the code has it: when the request succeeds, getPullRequestDiff
    returns a record whose size is the UTF-8 byte length of the full text
    and whose truncated flag is true exactly when size exceeds
    MAX_DIFF_SIZE.  When truncated is false the content is the full text.
    When truncated is true the content is text.substring(0, MAX_DIFF_SIZE):
    its length is the smaller of MAX_DIFF_SIZE (taken as 0 when negative)
    and the number of code units of the text, so it equals MAX_DIFF_SIZE
    exactly when the text holds at least that many code units, which is
    always so for a text of single-byte characters. *)
Theorem getPullRequestDiff_truncation K svc n text :
  pulls_get_diff (octokit svc) (svc_owner svc) (svc_repo svc) n = Ok text ->
  exists d,
    result_of (getPullRequestDiff K svc n) = Return d
    /\ size d = byteLength text
    /\ (truncated d = true <-> size d > MAX_DIFF_SIZE K)
    /\ (truncated d = false -> content d = text)
    /\ (truncated d = true ->
        content d = substring text 0 (MAX_DIFF_SIZE K)
        /\ length (content d)
           = Z.min (Z.max (MAX_DIFF_SIZE K) 0) (length text)
        /\ (length (content d) = MAX_DIFF_SIZE K
            <-> 0 <= MAX_DIFF_SIZE K <= length text))
    /\ (truncated d = true -> 0 <= MAX_DIFF_SIZE K ->
        Forall (fun c => (c < 128)%N) text ->
        length (content d) = MAX_DIFF_SIZE K).
Proof.
  intros Hget.
  exists (toPullRequestDiff (MAX_DIFF_SIZE K) text).
  split; [now apply getPullRequestDiff_returns|].
  unfold toPullRequestDiff. cbn [size truncated content].
  pose proof (length_nonneg text) as Hlen.
  destruct (Z.ltb_spec (MAX_DIFF_SIZE K) (byteLength text)) as [Hlt|Hge].
  - split; [reflexivity|].
    split; [split; [lia | reflexivity]|].
    split; [discriminate|].
    split.
    + intros _. split; [reflexivity|].
      rewrite substring_prefix_length. split; lia.
    + intros _ Hmax Hascii. rewrite substring_prefix_length.
      rewrite byteLength_single_byte in Hlt by assumption. lia.
  - split; [reflexivity|].
    split; [split; [discriminate | lia]|].
    split; [reflexivity|].
    split; discriminate.
Qed.

Lemma getPullRequestDiff_truncation_witness :
  exists d,
    result_of (getPullRequestDiff (sample_constants 4)
                 (sample_service accented_client) (Some 42)) = Return d
    /\ size d = 6 /\ truncated d = true /\ length (content d) = 3.
Proof.
  destruct (@getPullRequestDiff_truncation (sample_constants 4)
              (sample_service accented_client) (Some 42) accented_diff
              eq_refl)
    as [d [Hd [Hs [Ht [_ [Hc _]]]]]].
  exists d. split; [exact Hd|].
  assert (Htr : truncated d = true).
  { apply Ht. rewrite Hs. vm_compute. reflexivity. }
  split; [rewrite Hs; reflexivity|].
  split; [exact Htr|].
  destruct (Hc Htr) as [_ [Hl _]]. rewrite Hl. reflexivity.
Defined.

(** C1 as stated fails: a diff of three two-byte characters has six
    bytes; with a maximum of four it is flagged truncated while its
    content keeps all three code units, not four. *)
Lemma truncated_content_shorter_than_max :
  result_of (getPullRequestDiff (sample_constants 4)
               (sample_service accented_client) (Some 42))
  = Return (mkPullRequestDiff accented_diff 6 true)
  /\ length accented_diff <> MAX_DIFF_SIZE (sample_constants 4).
Proof. split; [reflexivity | discriminate]. Qed.

(** ** C3: the enterprise API suffix *)

Lemma startsWith_firstn (p s : jsstring) :
  startsWith s p = true -> firstn (List.length p) s = p.
Proof.
  revert s. induction p as [|a p IH]; intros s H.
  - reflexivity.
  - destruct s as [|b s]; [discriminate|].
    cbn in H. apply andb_true_iff in H. destruct H as [Hab Hrest].
    apply N.eqb_eq in Hab. subst b.
    cbn. f_equal. now apply IH.
Qed.

Lemma startsWith_refl_app (p x : jsstring) : startsWith (p ++ x) p = true.
Proof.
  induction p as [|a p IH]; [reflexivity|].
  cbn. now rewrite N.eqb_refl, IH.
Qed.

Lemma startsWith_short (p s : jsstring) :
  (List.length s < List.length p)%nat -> startsWith s p = false.
Proof.
  revert s. induction p as [|a p IH]; intros s H.
  - cbn in H. lia.
  - destruct s as [|b s]; [reflexivity|].
    cbn in *. rewrite IH by lia. apply andb_false_r.
Qed.

Lemma startsWith_app_long (p s x : jsstring) :
  (List.length p <= List.length s)%nat ->
  startsWith (s ++ x) p = startsWith s p.
Proof.
  revert s. induction p as [|a p IH]; intros s H.
  - reflexivity.
  - destruct s as [|b s]; [cbn in H; lia|].
    cbn in *. rewrite IH by lia. reflexivity.
Qed.

Lemma endsWith_app (s p : jsstring) : endsWith (s ++ p) p = true.
Proof.
  unfold endsWith. rewrite length_app.
  replace (List.length s + List.length p - List.length p)%nat
    with (List.length s + 0)%nat by lia.
  rewrite skipn_app, skipn_all2 by lia.
  replace (List.length s + 0 - List.length s)%nat with 0%nat by lia.
  cbn [skipn app].
  pose proof (startsWith_refl_app p []) as Hp.
  rewrite app_nil_r in Hp. rewrite Hp, andb_true_r.
  apply Nat.leb_le. lia.
Qed.

Lemma endsWith_split (s p : jsstring) :
  endsWith s p = true -> exists w, s = w ++ p.
Proof.
  unfold endsWith. intros H. apply andb_true_iff in H.
  destruct H as [Hlen Hstart]. apply Nat.leb_le in Hlen.
  apply startsWith_firstn in Hstart.
  exists (firstn (List.length s - List.length p) s).
  rewrite firstn_all2 in Hstart by (rewrite length_skipn; lia).
  rewrite <- Hstart at 2.
  symmetry. apply firstn_skipn.
Qed.

(** Appending the suffix adds one occurrence: none can straddle the
    seam, since the text after its second slash differs. *)
Lemma occurrences_app_suffix (u : jsstring) :
  occurrences API_V3 (u ++ API_V3) = (occurrences API_V3 u + 1)%nat.
Proof.
  induction u as [|c u IH]; [reflexivity|].
  cbn [app occurrences]. rewrite IH.
  change (c :: u ++ API_V3) with ((c :: u) ++ API_V3).
  destruct (Nat.le_gt_cases 7 (List.length (c :: u))) as [Hlong|Hshort].
  - rewrite startsWith_app_long by exact Hlong. lia.
  - rewrite (startsWith_short API_V3 (c :: u)) by exact Hshort.
    destruct (startsWith ((c :: u) ++ API_V3) API_V3) eqn:E; [|lia].
    apply startsWith_firstn in E. exfalso.
    destruct u as [|u1 [|u2 [|u3 [|u4 [|u5 [|u6 u]]]]]];
      cbn in E, Hshort; try discriminate E; lia.
Qed.

Lemma occurrences_app_slash (w : jsstring) :
  occurrences API_V3 (w ++ lit "/") = occurrences API_V3 w.
Proof.
  induction w as [|c w IH]; [reflexivity|].
  cbn [app occurrences]. rewrite IH.
  change (c :: w ++ lit "/") with ((c :: w) ++ lit "/").
  destruct (Nat.le_gt_cases 7 (List.length (c :: w))) as [Hlong|Hshort].
  - rewrite startsWith_app_long by exact Hlong. reflexivity.
  - rewrite (startsWith_short API_V3 (c :: w)) by exact Hshort.
    destruct (startsWith ((c :: w) ++ lit "/") API_V3) eqn:E; [|reflexivity].
    apply startsWith_firstn in E. exfalso.
    destruct w as [|u1 [|u2 [|u3 [|u4 [|u5 [|u6 w]]]]]];
      cbn in E, Hshort; try discriminate E; lia.
Qed.

Lemma adjustBaseUrl_unchanged (url : jsstring) :
  endsWith url API_V3 = true -> adjustBaseUrl url = url.
Proof. intros H. unfold adjustBaseUrl. now rewrite H. Qed.

Lemma adjustBaseUrl_appended (url : jsstring) :
  endsWith url API_V3 = false ->
  adjustBaseUrl url
  = url ++ (if endsWith url (lit "/") then lit "api/v3" else lit "/api/v3").
Proof.
  intros H. unfold adjustBaseUrl. rewrite H. cbn [negb].
  now destruct (endsWith url (lit "/")).
Qed.

Lemma adjustBaseUrl_endsWith (url : jsstring) :
  endsWith (adjustBaseUrl url) API_V3 = true.
Proof.
  destruct (endsWith url API_V3) eqn:E.
  - now rewrite adjustBaseUrl_unchanged.
  - rewrite adjustBaseUrl_appended by exact E.
    destruct (endsWith url (lit "/")) eqn:Es.
    + destruct (endsWith_split _ _ Es) as [w ->].
      rewrite <- app_assoc. apply (endsWith_app w API_V3).
    + apply (endsWith_app url API_V3).
Qed.

Lemma adjustBaseUrl_occurrences (url : jsstring) :
  occurrences API_V3 (adjustBaseUrl url)
  = (occurrences API_V3 url + if endsWith url API_V3 then 0 else 1)%nat.
Proof.
  destruct (endsWith url API_V3) eqn:E.
  - rewrite adjustBaseUrl_unchanged by exact E. lia.
  - rewrite adjustBaseUrl_appended by exact E.
    destruct (endsWith url (lit "/")) eqn:Es.
    + destruct (endsWith_split _ _ Es) as [w ->].
      rewrite <- app_assoc.
      change (lit "/" ++ lit "api/v3") with API_V3.
      now rewrite occurrences_app_suffix, occurrences_app_slash.
    + apply occurrences_app_suffix.
Qed.

Lemma buildOctokitConfig_custom config url :
  baseUrl config = Some url -> url <> [] ->
  result_of (buildOctokitConfig config)
  = Return (mkOctokitConfig (token config) (Some (adjustBaseUrl url))).
Proof.
  intros Hb Hne. unfold buildOctokitConfig. rewrite Hb.
  destruct url as [|c url]; [contradiction|]. cbn [truthy].
  now destruct (negb (endsWith (c :: url) API_V3)).
Qed.

Lemma buildOctokitConfig_default config :
  baseUrl config = None \/ baseUrl config = Some [] ->
  result_of (buildOctokitConfig config)
  = Return (mkOctokitConfig (token config) None).
Proof.
  intros [Hb|Hb]; unfold buildOctokitConfig; rewrite Hb; reflexivity.
Qed.

Lemma new_GitHubService_client_config env config url :
  baseUrl config = Some url -> url <> [] ->
  In (NewOctokit (mkOctokitConfig (token config) (Some (adjustBaseUrl url))))
     (trace (new_GitHubService env config)).
Proof.
  intros Hb Hne. unfold new_GitHubService.
  apply in_trace_try.
  eapply in_trace_bind_r;
    [apply buildOctokitConfig_custom with (url := url); assumption|].
  eapply in_trace_bind_r; [reflexivity|].
  eapply in_trace_bind_r; [reflexivity|].
  apply in_trace_bind_l, in_trace_try, in_trace_bind_l.
  unfold request. apply in_trace_bind_l. now left.
Qed.

(** C3, as the code has it: a non-empty base URL handed to the
    constructor is passed to Octokit unchanged when it ends with
    '/api/v3'; otherwise 'api/v3' is appended when it ends with a slash
    and '/api/v3' when it does not.  The configured URL always ends with
    '/api/v3', and it contains the suffix exactly once whenever the
    supplied string contains it nowhere, or once and at its end. *)
Theorem constructor_baseUrl_suffix env config url :
  baseUrl config = Some url -> url <> [] ->
  exists configured,
    result_of (buildOctokitConfig config)
    = Return (mkOctokitConfig (token config) (Some configured))
    /\ In (NewOctokit (mkOctokitConfig (token config) (Some configured)))
          (trace (new_GitHubService env config))
    /\ (endsWith url API_V3 = true -> configured = url)
    /\ (endsWith url API_V3 = false ->
        configured
        = url ++ (if endsWith url (lit "/") then lit "api/v3"
                  else lit "/api/v3"))
    /\ endsWith configured API_V3 = true
    /\ (occurrences API_V3 url = 0%nat
        \/ (endsWith url API_V3 = true /\ occurrences API_V3 url = 1%nat) ->
        occurrences API_V3 configured = 1%nat).
Proof.
  intros Hb Hne. exists (adjustBaseUrl url).
  split; [now apply buildOctokitConfig_custom|].
  split; [now apply new_GitHubService_client_config|].
  split; [apply adjustBaseUrl_unchanged|].
  split; [apply adjustBaseUrl_appended|].
  split; [apply adjustBaseUrl_endsWith|].
  rewrite adjustBaseUrl_occurrences.
  intros [H0|[He H1]].
  - rewrite H0. destruct (endsWith url API_V3) eqn:E; [|reflexivity].
    exfalso. destruct (endsWith_split _ _ E) as [w Hw].
    rewrite Hw, occurrences_app_suffix in H0. lia.
  - now rewrite He, H1.
Qed.

Lemma constructor_baseUrl_suffix_witness :
  exists configured,
    result_of (buildOctokitConfig (enterprise_config "https://ghe.example.com/"))
    = Return (mkOctokitConfig (lit "ghp_0123") (Some configured))
    /\ configured = lit "https://ghe.example.com/api/v3"
    /\ occurrences API_V3 configured = 1%nat.
Proof.
  destruct (@constructor_baseUrl_suffix
              (sample_env (Ok accented_client))
              (enterprise_config "https://ghe.example.com/")
              (lit "https://ghe.example.com/") eq_refl)
    as [u [Hr [_ [_ [Happ [_ Hocc]]]]]].
  - discriminate.
  - exists u. split; [exact Hr|]. split.
    + rewrite Happ; reflexivity.
    + apply Hocc. left. reflexivity.
Defined.

(** C3 as stated fails on 'contains the suffix exactly once' and on the
    empty string: a URL that ends with the suffix is kept as it is, also
    when it holds the suffix twice; a URL that holds the suffix before a
    further path segment gets a second one appended; and for the empty
    string no base URL is configured at all. *)
Lemma suffix_not_always_once :
  (endsWith (lit "https://ghe.example.com/api/v3/api/v3") API_V3 = true
   /\ result_of (buildOctokitConfig
                   (enterprise_config "https://ghe.example.com/api/v3/api/v3"))
      = Return (mkOctokitConfig (lit "ghp_0123")
                  (Some (lit "https://ghe.example.com/api/v3/api/v3")))
   /\ occurrences API_V3 (lit "https://ghe.example.com/api/v3/api/v3")
      = 2%nat)
  /\ (result_of (buildOctokitConfig
                   (enterprise_config "https://ghe.example.com/api/v3/raw"))
      = Return (mkOctokitConfig (lit "ghp_0123")
                  (Some (lit "https://ghe.example.com/api/v3/raw/api/v3")))
      /\ occurrences API_V3 (lit "https://ghe.example.com/api/v3/raw/api/v3")
         = 2%nat)
  /\ result_of (buildOctokitConfig (enterprise_config ""))
     = Return (mkOctokitConfig (lit "ghp_0123") None).
Proof. repeat split; reflexivity. Qed.

(** ** C4: paging through the changed files *)

Section Paging.

Variable svc : GitHubService.
Variable pn : option Z.

Let listFiles (page : nat) : result (list FileData) :=
  pulls_listFiles (octokit svc) (svc_owner svc) (svc_repo svc) pn
                  PER_PAGE page.

Let ask (page : nat) : Event :=
  PullsListFiles (svc_owner svc) (svc_repo svc) pn PER_PAGE page.

(** One iteration whose request succeeds. *)
Lemma fetchPages_step fuel page acc data :
  listFiles page = Ok data ->
  let acc' := acc ++ map toPullRequestFile data in
  let rest := if (List.length data <? PER_PAGE)%nat then ret (acc', page)
              else fetchPages fuel svc pn (S page) acc' in
  result_of (fetchPages (S fuel) svc pn page acc) = result_of rest
  /\ requested_pages (trace (fetchPages (S fuel) svc pn page acc))
     = page :: requested_pages (trace rest)
  /\ calls (trace (fetchPages (S fuel) svc pn page acc))
     = ask page :: calls (trace rest)
  /\ error_logs (trace (fetchPages (S fuel) svc pn page acc))
     = error_logs (trace rest).
Proof.
  intros Hdata acc' rest. unfold listFiles in Hdata.
  cbn [fetchPages]. unfold log.
  rewrite bind_emit, Hdata, bind_request_ok, bind_emit.
  fold acc'. fold rest. repeat split; reflexivity.
Qed.

(** One iteration whose request fails. *)
Lemma fetchPages_step_error fuel page acc e :
  listFiles page = Err e ->
  result_of (fetchPages (S fuel) svc pn page acc) = Throw e
  /\ calls (trace (fetchPages (S fuel) svc pn page acc)) = [ask page]
  /\ error_logs (trace (fetchPages (S fuel) svc pn page acc)) = [].
Proof.
  intros He. unfold listFiles in He.
  cbn [fetchPages]. unfold log.
  rewrite bind_emit, He, bind_request_err. repeat split; reflexivity.
Qed.

Variable pages : nat -> list FileData.
Variable n : nat.

Hypothesis served :
  forall p, (1 <= p <= n)%nat -> listFiles p = Ok (pages p).
Hypothesis full_before :
  forall p, (1 <= p < n)%nat -> (PER_PAGE <= List.length (pages p))%nat.

(** The loop from [page] up to the first short page [n]. *)
Lemma fetchPages_until_short d :
  forall page acc fuel,
    (page + d = n)%nat -> (1 <= page)%nat -> (d < fuel)%nat ->
    (List.length (pages n) < PER_PAGE)%nat ->
    result_of (fetchPages fuel svc pn page acc)
    = Return (acc ++ flat_map (pageFiles pages) (seq page (S d)), n)
    /\ requested_pages (trace (fetchPages fuel svc pn page acc))
       = seq page (S d)
    /\ calls (trace (fetchPages fuel svc pn page acc))
       = map ask (seq page (S d))
    /\ error_logs (trace (fetchPages fuel svc pn page acc)) = [].
Proof.
  induction d as [|d IH]; intros page acc fuel Hn Hpage Hfuel Hshort;
    (destruct fuel as [|fuel]; [lia|]);
    destruct (@fetchPages_step fuel page acc (pages page))
      as [Hr [Hq [Hc He]]]; try (apply served; lia);
    rewrite Hr, Hq, Hc, He; clear Hr Hq Hc He.
  - assert (page = n) by lia. subst page.
    apply Nat.ltb_lt in Hshort. rewrite Hshort.
    cbn. rewrite app_nil_r. repeat split; reflexivity.
  - assert (Hfull : (List.length (pages page) <? PER_PAGE)%nat = false)
      by (apply Nat.ltb_ge, full_before; lia).
    rewrite Hfull.
    destruct (IH (S page) (acc ++ map toPullRequestFile (pages page)) fuel)
      as [Hr [Hq [Hc He]]]; try lia; try assumption.
    rewrite Hr, Hq, Hc, He.
    cbn [seq flat_map map]. rewrite <- app_assoc.
    repeat split; reflexivity.
Qed.

(** The loop when the request for page [n] fails. *)
Lemma fetchPages_until_error d e :
  forall page acc fuel,
    (page + d = n)%nat -> (1 <= page)%nat -> (d < fuel)%nat ->
    (forall p, (page <= p < n)%nat -> listFiles p = Ok (pages p)) ->
    listFiles n = Err e ->
    result_of (fetchPages fuel svc pn page acc) = Throw e
    /\ calls (trace (fetchPages fuel svc pn page acc))
       = map ask (seq page (S d))
    /\ error_logs (trace (fetchPages fuel svc pn page acc)) = [].
Proof.
  induction d as [|d IH]; intros page acc fuel Hn Hpage Hfuel Hok Herr;
    (destruct fuel as [|fuel]; [lia|]).
  - assert (page = n) by lia. subst page.
    now apply fetchPages_step_error.
  - destruct (@fetchPages_step fuel page acc (pages page))
      as [Hr [_ [Hc He]]]; [apply Hok; lia|].
    rewrite Hr, Hc, He; clear Hr Hc He.
    assert (Hfull : (List.length (pages page) <? PER_PAGE)%nat = false)
      by (apply Nat.ltb_ge, full_before; lia).
    rewrite Hfull.
    destruct (IH (S page) (acc ++ map toPullRequestFile (pages page)) fuel)
      as [Hr [Hc He]]; try lia; try assumption.
    + intros p Hp. apply Hok. lia.
    + rewrite Hr, Hc, He. repeat split; reflexivity.
Qed.

End Paging.

(** No bound on the number of pages: while every page is full the loop
    goes on, whatever the iteration budget. *)
Lemma fetchPages_keeps_running svc pn (pages : nat -> list FileData) :
  (forall p, pulls_listFiles (octokit svc) (svc_owner svc) (svc_repo svc) pn
                             PER_PAGE p = Ok (pages p)) ->
  (forall p, (PER_PAGE <= List.length (pages p))%nat) ->
  forall fuel page acc,
    result_of (fetchPages fuel svc pn page acc) = Running.
Proof.
  intros Hserved Hfull. induction fuel as [|fuel IH]; intros page acc.
  - reflexivity.
  - destruct (@fetchPages_step svc pn fuel page acc (pages page)
                (Hserved page)) as [Hr _].
    rewrite Hr.
    assert (Hge : (List.length (pages page) <? PER_PAGE)%nat = false)
      by apply Nat.ltb_ge, Hfull.
    rewrite Hge. apply IH.
Qed.

(** C4: when page n is the first page of the listing with fewer than 100
    entries, getPullRequestFiles (given at least n iterations) requests
    the pages 1, ..., n in this order and no other, and returns the
    concatenation of their entries in request order, so its length is the
    sum of the page lengths.  Page N+1 is requested exactly when page N
    held at least 100 entries, which, for an API that serves at most
    per_page = 100 entries a page, is exactly when it held 100; the loop
    ends with the first page that holds fewer. *)
Theorem getPullRequestFiles_pagination K svc pn
        (pages : nat -> list FileData) (n fuel : nat) :
  (1 <= n <= fuel)%nat ->
  (forall p, (1 <= p <= n)%nat ->
     pulls_listFiles (octokit svc) (svc_owner svc) (svc_repo svc) pn
                     PER_PAGE p = Ok (pages p)) ->
  (forall p, (1 <= p < n)%nat -> (PER_PAGE <= List.length (pages p))%nat) ->
  (List.length (pages n) < PER_PAGE)%nat ->
  let run := getPullRequestFiles K fuel svc pn in
  let asked := requested_pages (trace run) in
  let expected := flat_map (pageFiles pages) (seq 1 n) in
  result_of run = Return expected
  /\ asked = seq 1 n
  /\ List.length expected
     = list_sum (map (fun p => List.length (pages p)) (seq 1 n))
  /\ (forall N, In N asked ->
        (In (S N) asked <-> (PER_PAGE <= List.length (pages N))%nat))
  /\ (forall N, In N asked -> (List.length (pages N) <= PER_PAGE)%nat ->
        (In (S N) asked <-> List.length (pages N) = PER_PAGE))
  /\ (forall N, In N asked -> (List.length (pages N) < PER_PAGE)%nat ->
        N = n /\ last asked 0%nat = n).
Proof.
  intros Hn Hserved Hfull Hshort run asked expected.
  destruct (@fetchPages_until_short svc pn pages n Hserved Hfull
              (n - 1)%nat 1%nat [] fuel)
    as [Hr [Hq _]]; try lia.
  replace (S (n - 1)) with n in Hr, Hq by lia.
  cbn [app] in Hr.
  assert (Hrun : run
                 = (Log LDebug (lit "Fetching files for PR " ++ showPull pn)
                        NoArg
                    :: trace (fetchPages fuel svc pn 1 []) ++
                       [Log LInfo (lit "Successfully fetched all PR files")
                            NoArg],
                    Return expected)).
  { unfold run, getPullRequestFiles, log.
    rewrite bind_emit, (bind_return _ _ Hr), bind_emit.
    reflexivity. }
  assert (Hasked : asked = seq 1 n).
  { unfold asked. rewrite Hrun. cbn [trace fst].
    change (requested_pages (?x :: ?t)) with (requested_pages ([x] ++ t)).
    rewrite !requested_pages_app, Hq. cbn. apply app_nil_r. }
  assert (Hin : forall N, In N asked <-> (1 <= N <= n)%nat).
  { intros N. rewrite Hasked, in_seq. lia. }
  split; [now rewrite Hrun|].
  split; [exact Hasked|].
  split.
  { unfold expected. rewrite length_flat_map. f_equal.
    apply map_ext. intros p. apply length_map. }
  split; [|split].
  - intros N HN. apply Hin in HN. rewrite Hin. split.
    + intros HS. apply Hfull. lia.
    + intros Hge. destruct (Nat.eq_dec N n) as [->|Hne]; lia.
  - intros N HN Hle. apply Hin in HN. rewrite Hin. split.
    + intros HS. assert (PER_PAGE <= List.length (pages N))%nat
        by (apply Hfull; lia). lia.
    + intros Heq. destruct (Nat.eq_dec N n) as [->|Hne]; lia.
  - intros N HN Hlt. apply Hin in HN.
    assert (HNn : N = n).
    { destruct (Nat.eq_dec N n) as [|Hne]; [assumption|].
      assert (PER_PAGE <= List.length (pages N))%nat
        by (apply Hfull; lia). lia. }
    split; [exact HNn|].
    rewrite Hasked. replace n with (S (n - 1)) at 1 by lia.
    rewrite seq_S, last_last. lia.
Qed.

Lemma getPullRequestFiles_pagination_witness :
  result_of (getPullRequestFiles (sample_constants 1000) 5
               (sample_service two_page_client) (Some 42))
  = Return (flat_map (pageFiles two_pages) [1; 2]%nat)
  /\ requested_pages
       (trace (getPullRequestFiles (sample_constants 1000) 5
                 (sample_service two_page_client) (Some 42)))
     = [1; 2]%nat.
Proof.
  destruct (@getPullRequestFiles_pagination (sample_constants 1000)
              (sample_service two_page_client) (Some 42) two_pages 2 5)
    as [Hr [Hq _]].
  - lia.
  - intros p _. reflexivity.
  - intros p Hp. assert (p = 1%nat) by lia. subst p. vm_compute. lia.
  - vm_compute. lia.
  - split; [exact Hr | exact Hq].
Defined.

(** ** getPullRequest: the three ways it ends *)

Section GetPullRequest.

Variable K : Constants.
Variable svc : GitHubService.
Variable pn : option Z.

Let answer : result PullData :=
  pulls_get (octokit svc) (svc_owner svc) (svc_repo svc) pn.

Let prelude : list Event :=
  [Log LDebug (lit "Fetching PR " ++ showPull pn ++ lit " from "
               ++ svc_owner svc ++ lit "/" ++ svc_repo svc) NoArg;
   Log LDebug (lit "Octokit instance check") NoArg;
   PullsGet (svc_owner svc) (svc_repo svc) pn].

Lemma getPullRequest_returns data info :
  answer = Ok data -> toPullRequestInfo data = Ok info ->
  getPullRequest K svc pn = (prelude, Return info).
Proof.
  unfold answer. intros Hd Hi. unfold getPullRequest, log.
  rewrite Hd, !bind_emit, bind_request_ok, Hi. reflexivity.
Qed.

Lemma getPullRequest_rethrows_mapping data e :
  answer = Ok data -> toPullRequestInfo data = Err e ->
  getPullRequest K svc pn
  = (prelude ++ [Log LError (fetchFailureLog K pn e) (ErrorArg e)], Throw e).
Proof.
  unfold answer. intros Hd Hi. unfold getPullRequest, log.
  rewrite Hd, !bind_emit, bind_request_ok, Hi.
  unfold fetchFailureLog, fetchFailureText.
  cbn [lift trace result_of fst snd try_catch].
  now destruct (status_is e 401), (status_is e 404).
Qed.

Lemma getPullRequest_rethrows_request e :
  answer = Err e ->
  getPullRequest K svc pn
  = (prelude ++ [Log LError (fetchFailureLog K pn e) (ErrorArg e)], Throw e).
Proof.
  unfold answer. intros Hd. unfold getPullRequest, log.
  rewrite Hd, !bind_emit, bind_request_err.
  unfold fetchFailureLog, fetchFailureText.
  cbn [lift trace result_of fst snd try_catch].
  now destruct (status_is e 401), (status_is e 404).
Qed.

End GetPullRequest.

Lemma status_is_iff e k : status_is e k = true <-> err_status e = Some k.
Proof.
  unfold status_is. destruct (err_status e) as [s|].
  - rewrite Z.eqb_eq. split; [now intros -> | now intros [= ->]].
  - split; discriminate.
Qed.

Lemma includes_unfold (s p : jsstring) :
  includes s p
  = startsWith s p || match s with [] => false | _ :: s' => includes s' p end.
Proof. now destruct s. Qed.

Lemma includes_app_r (pre s p : jsstring) :
  includes s p = true -> includes (pre ++ s) p = true.
Proof.
  intros H. induction pre as [|c pre IH]; [exact H|].
  rewrite includes_unfold. cbn [app]. rewrite IH. apply orb_true_r.
Qed.

(** ** C2: a 401 and a 404 from the metadata fetch *)

(** C2, as the code has it: when the metadata request fails with status
    401 or 404, getPullRequest re-raises the client's error as it is
    (name, message and status untouched); it creates no error of its own.
    The remediation guidance goes to the logger: one error-level entry
    that carries the failure text followed, for 401, by the
    authentication guidance and, for 404, by the not-found guidance, with
    the error attached.  The two guidance texts differ; the raised errors
    differ by their status. *)
Theorem getPullRequest_401_404 K svc pn e :
  pulls_get (octokit svc) (svc_owner svc) (svc_repo svc) pn = Err e ->
  let run := getPullRequest K svc pn in
  result_of run = Throw e
  /\ (err_status e = Some 401 ->
      error_logs (trace run)
      = [(fetchFailureText K pn ++ AUTH_GUIDANCE, ErrorArg e)]
      /\ includes (fetchFailureText K pn ++ AUTH_GUIDANCE)
                  (lit "Invalid or expired GitHub token") = true
      /\ includes (fetchFailureText K pn ++ AUTH_GUIDANCE)
                  (lit "Incorrect github_api_url parameter") = true)
  /\ (err_status e = Some 404 ->
      error_logs (trace run)
      = [(fetchFailureText K pn ++ NOT_FOUND_GUIDANCE, ErrorArg e)]
      /\ includes (fetchFailureText K pn ++ NOT_FOUND_GUIDANCE)
                  (lit "Repository name format") = true
      /\ includes (fetchFailureText K pn ++ NOT_FOUND_GUIDANCE)
                  (lit "Token has access to the repository") = true)
  /\ AUTH_GUIDANCE <> NOT_FOUND_GUIDANCE.
Proof.
  intros Herr run.
  assert (Hrun : run
                 = ([Log LDebug (lit "Fetching PR " ++ showPull pn
                                 ++ lit " from " ++ svc_owner svc ++ lit "/"
                                 ++ svc_repo svc) NoArg;
                     Log LDebug (lit "Octokit instance check") NoArg;
                     PullsGet (svc_owner svc) (svc_repo svc) pn]
                    ++ [Log LError (fetchFailureLog K pn e) (ErrorArg e)],
                    Throw e))
    by (now apply getPullRequest_rethrows_request).
  rewrite Hrun. cbn [result_of trace fst snd app error_logs flat_map].
  split; [reflexivity|].
  split; [|split].
  - intros H401. unfold fetchFailureLog.
    apply status_is_iff in H401. rewrite H401.
    split; [reflexivity|].
    split; apply includes_app_r; vm_compute; reflexivity.
  - intros H404. unfold fetchFailureLog.
    assert (H401 : status_is e 401 = false).
    { unfold status_is. rewrite H404. reflexivity. }
    apply status_is_iff in H404. rewrite H401, H404.
    split; [reflexivity|].
    split; apply includes_app_r; vm_compute; reflexivity.
  - discriminate.
Qed.

Lemma getPullRequest_401_404_witness :
  result_of (getPullRequest (sample_constants 1000)
               (sample_service (failing_client unauthorized)) (Some 42))
  = Throw unauthorized
  /\ error_logs (trace (getPullRequest (sample_constants 1000)
                          (sample_service (failing_client unauthorized))
                          (Some 42)))
     = [(fetchFailureText (sample_constants 1000) (Some 42) ++ AUTH_GUIDANCE,
         ErrorArg unauthorized)].
Proof.
  destruct (@getPullRequest_401_404 (sample_constants 1000)
              (sample_service (failing_client unauthorized)) (Some 42)
              unauthorized eq_refl)
    as [Hr [H401 _]].
  split; [exact Hr|]. now destruct (H401 eq_refl).
Defined.

(** C2 as stated fails: on a 401 the caller receives the client's own
    HttpError, whose message holds no guidance, not an AuthenticationError;
    on a 404 it receives an error of the same name, not a NotFoundError. *)
Lemma unauthorized_rethrown_without_guidance :
  result_of (getPullRequest (sample_constants 1000)
               (sample_service (failing_client unauthorized)) (Some 42))
  = Throw unauthorized
  /\ err_name unauthorized <> lit "AuthenticationError"
  /\ includes (err_message unauthorized)
              (lit "Invalid or expired GitHub token") = false
  /\ includes (err_message unauthorized) AUTH_GUIDANCE = false
  /\ result_of (getPullRequest (sample_constants 1000)
                  (sample_service (failing_client not_found)) (Some 42))
     = Throw not_found
  /\ err_name not_found <> lit "NotFoundError"
  /\ err_name not_found = err_name unauthorized.
Proof. repeat split; try reflexivity; discriminate. Qed.

(** ** C8: the author's login *)

Lemma getPullRequest_inversion K svc pn data info :
  pulls_get (octokit svc) (svc_owner svc) (svc_repo svc) pn = Ok data ->
  result_of (getPullRequest K svc pn) = Return info ->
  toPullRequestInfo data = Ok info.
Proof.
  intros Hd Hr. destruct (toPullRequestInfo data) as [i|e] eqn:Hi.
  - rewrite (getPullRequest_returns K svc pn Hd Hi) in Hr.
    now injection Hr as ->.
  - rewrite (getPullRequest_rethrows_mapping K svc pn Hd Hi) in Hr.
    discriminate.
Qed.

Lemma toPullRequestInfo_author data info :
  toPullRequestInfo data = Ok info ->
  user_login (user info) = authorLogin (pd_user data).
Proof.
  unfold toPullRequestInfo. intros H.
  destruct (readRepo (pd_head data)); [|discriminate].
  destruct (readRepo (pd_base data)); [|discriminate].
  now injection H as <-.
Qed.

(** ** C10: responses with missing repository data *)

Lemma readRepo_missing b :
  bd_repo b = None
  \/ (exists r, bd_repo b = Some r /\ rd_owner r = None) ->
  exists prop, readRepo b = Err (TypeError_reading prop).
Proof.
  unfold readRepo. intros [Hb|[r [Hb Ho]]].
  - exists "full_name"%string. now rewrite Hb.
  - exists "login"%string. rewrite Hb. cbn [reading]. now rewrite Ho.
Qed.

Lemma readRepo_present b r o :
  bd_repo b = Some r -> rd_owner r = Some o ->
  readRepo b
  = Ok (mkRepoInfo (rd_full_name r) (rd_name r) (mkOwnerInfo (od_login o))).
Proof.
  unfold readRepo. intros Hb Ho. rewrite Hb. cbn [reading]. now rewrite Ho.
Qed.

Lemma toPullRequestInfo_missing data :
  (bd_repo (pd_head data) = None
   \/ exists r, bd_repo (pd_head data) = Some r /\ rd_owner r = None)
  \/ (bd_repo (pd_base data) = None
      \/ exists r, bd_repo (pd_base data) = Some r /\ rd_owner r = None) ->
  exists prop, toPullRequestInfo data = Err (TypeError_reading prop).
Proof.
  unfold toPullRequestInfo. intros [H|H].
  - destruct (readRepo_missing _ H) as [prop ->]. now exists prop.
  - destruct (readRepo (pd_head data)) as [hr|e] eqn:Eh.
    + destruct (readRepo_missing _ H) as [prop ->]. now exists prop.
    + unfold readRepo in Eh.
      destruct (bd_repo (pd_head data)) as [r|]; cbn [reading] in Eh.
      * destruct (rd_owner r); cbn [reading] in Eh; [discriminate|].
        injection Eh as <-. now exists "login"%string.
      * injection Eh as <-. now exists "full_name"%string.
Qed.

(** C10, as the code has it: only the author's login is defaulted.  When
    the response lacks head.repo or base.repo, or the owner of either,
    reading through it raises a TypeError, which getPullRequest logs with
    the plain failure text and re-raises: no record is returned.  When
    both repositories and their owners are there, getPullRequest returns
    a record in which full_name, name and the owner's login are the
    values of the response, copied as they are, a missing one included:
    nothing is put in its place and no error is raised for it. *)
Theorem getPullRequest_missing_repo K svc pn data :
  pulls_get (octokit svc) (svc_owner svc) (svc_repo svc) pn = Ok data ->
  let run := getPullRequest K svc pn in
  ((bd_repo (pd_head data) = None
    \/ exists r, bd_repo (pd_head data) = Some r /\ rd_owner r = None)
   \/ (bd_repo (pd_base data) = None
       \/ exists r, bd_repo (pd_base data) = Some r /\ rd_owner r = None) ->
   exists prop,
     result_of run = Throw (TypeError_reading prop)
     /\ error_logs (trace run)
        = [(fetchFailureText K pn, ErrorArg (TypeError_reading prop))])
  /\ (forall hr ho br bo,
        bd_repo (pd_head data) = Some hr -> rd_owner hr = Some ho ->
        bd_repo (pd_base data) = Some br -> rd_owner br = Some bo ->
        exists info,
          result_of run = Return info
          /\ error_logs (trace run) = []
          /\ repo (head info)
             = mkRepoInfo (rd_full_name hr) (rd_name hr)
                          (mkOwnerInfo (od_login ho))
          /\ repo (base info)
             = mkRepoInfo (rd_full_name br) (rd_name br)
                          (mkOwnerInfo (od_login bo))
          /\ user_login (user info) = authorLogin (pd_user data)).
Proof.
  intros Hd run. split.
  - intros Hmiss.
    destruct (toPullRequestInfo_missing _ Hmiss) as [prop Hi].
    exists prop. unfold run.
    rewrite (getPullRequest_rethrows_mapping K svc pn Hd Hi).
    split; reflexivity.
  - intros hr ho br bo Hh Hho Hb Hbo.
    assert (Hi : toPullRequestInfo data
                 = Ok (mkPullRequestInfo
                         (pd_number data) (pd_title data) (pd_body data)
                         (pd_state data)
                         (mkUserInfo (authorLogin (pd_user data)))
                         (mkBranchInfo (bd_ref (pd_head data))
                            (bd_sha (pd_head data))
                            (mkRepoInfo (rd_full_name hr) (rd_name hr)
                               (mkOwnerInfo (od_login ho))))
                         (mkBranchInfo (bd_ref (pd_base data))
                            (bd_sha (pd_base data))
                            (mkRepoInfo (rd_full_name br) (rd_name br)
                               (mkOwnerInfo (od_login bo)))))).
    { unfold toPullRequestInfo.
      now rewrite (readRepo_present _ Hh Hho), (readRepo_present _ Hb Hbo). }
    eexists. unfold run.
    rewrite (getPullRequest_returns K svc pn Hd Hi).
    repeat split; reflexivity.
Qed.

Lemma getPullRequest_missing_repo_witness :
  exists prop,
    result_of (getPullRequest (sample_constants 1000)
                 (sample_service orphan_client) (Some 42))
    = Throw (TypeError_reading prop)
    /\ error_logs (trace (getPullRequest (sample_constants 1000)
                            (sample_service orphan_client) (Some 42)))
       = [(fetchFailureText (sample_constants 1000) (Some 42),
           ErrorArg (TypeError_reading prop))].
Proof.
  apply (proj1 (@getPullRequest_missing_repo (sample_constants 1000)
                  (sample_service orphan_client) (Some 42) orphan_pull
                  eq_refl)).
  left. left. reflexivity.
Defined.

(** C10 as stated fails for full_name and name: a response whose head
    repository has neither raises no error; getPullRequest returns a
    record that carries the two missing values. *)
Lemma nameless_repo_is_returned :
  exists info,
    result_of (getPullRequest (sample_constants 1000)
                 (sample_service nameless_client) (Some 42)) = Return info
    /\ rd_full_name
         (mkRepoData None None (Some (mkOwnerData (Some (lit "o"))))) = None
    /\ full_name (repo (head info)) = None
    /\ name (repo (head info)) = None.
Proof. eexists. repeat split; reflexivity. Qed.

(** ** C8: the login of the returned record *)

(** C8: getPullRequest succeeds exactly on a response that carries both
    repositories and their owners, and it then returns a record whose
    author login is the remote user's login when the response carries
    one (a non-empty string), and "unknown" when the user is null or
    missing, when its login is null or missing, and also when it is
    empty.  No run that returns a record gives it another login. *)
Theorem getPullRequest_author K svc pn data :
  pulls_get (octokit svc) (svc_owner svc) (svc_repo svc) pn = Ok data ->
  let run := getPullRequest K svc pn in
  let login_of info := user_login (user info) in
  (forall hr ho br bo,
     bd_repo (pd_head data) = Some hr -> rd_owner hr = Some ho ->
     bd_repo (pd_base data) = Some br -> rd_owner br = Some bo ->
     exists info,
       result_of run = Return info
       /\ error_logs (trace run) = []
       /\ (forall u l, pd_user data = Some u -> ud_login u = Some l ->
             l <> [] -> login_of info = l)
       /\ (pd_user data = None -> login_of info = lit "unknown")
       /\ (forall u, pd_user data = Some u -> ud_login u = None ->
             login_of info = lit "unknown")
       /\ (forall u, pd_user data = Some u -> ud_login u = Some [] ->
             login_of info = lit "unknown"))
  /\ (forall info,
        result_of run = Return info ->
        (exists hr ho br bo,
           bd_repo (pd_head data) = Some hr /\ rd_owner hr = Some ho
           /\ bd_repo (pd_base data) = Some br /\ rd_owner br = Some bo)
        /\ (forall u l, pd_user data = Some u -> ud_login u = Some l ->
              l <> [] -> login_of info = l)
        /\ (pd_user data = None -> login_of info = lit "unknown")
        /\ (forall u, pd_user data = Some u -> ud_login u = None ->
              login_of info = lit "unknown")
        /\ (forall u, pd_user data = Some u -> ud_login u = Some [] ->
              login_of info = lit "unknown")).
Proof.
  intros Hd run login_of. subst run login_of. cbv beta.
  assert (Hlogin :
            forall info, toPullRequestInfo data = Ok info ->
              (forall u l, pd_user data = Some u -> ud_login u = Some l ->
                 l <> [] -> user_login (user info) = l)
              /\ (pd_user data = None ->
                  user_login (user info) = lit "unknown")
              /\ (forall u, pd_user data = Some u -> ud_login u = None ->
                    user_login (user info) = lit "unknown")
              /\ (forall u, pd_user data = Some u -> ud_login u = Some [] ->
                    user_login (user info) = lit "unknown")).
  { intros info Hi. rewrite (toPullRequestInfo_author _ Hi).
    unfold authorLogin. repeat split.
    - intros u l -> -> Hl. destruct l; [contradiction | reflexivity].
    - now intros ->.
    - now intros u -> ->.
    - now intros u -> ->. }
  split.
  - intros hr ho br bo Hh Hho Hb Hbo.
    destruct (toPullRequestInfo data) as [info|e] eqn:Hi.
    + exists info. rewrite (getPullRequest_returns K svc pn Hd Hi).
      split; [reflexivity|]. split; [reflexivity|]. now apply Hlogin.
    + exfalso. unfold toPullRequestInfo in Hi.
      rewrite (readRepo_present _ Hh Hho), (readRepo_present _ Hb Hbo) in Hi.
      discriminate Hi.
  - intros info Hr.
    pose proof (getPullRequest_inversion _ _ _ Hd Hr) as Hi.
    split; [|now apply Hlogin].
    unfold toPullRequestInfo, readRepo in Hi.
    destruct (bd_repo (pd_head data)) as [hr|] eqn:Hh; cbn [reading] in Hi;
      [|discriminate Hi].
    destruct (rd_owner hr) as [ho|] eqn:Hho; cbn [reading] in Hi;
      [|discriminate Hi].
    destruct (bd_repo (pd_base data)) as [br|] eqn:Hb; cbn [reading] in Hi;
      [|discriminate Hi].
    destruct (rd_owner br) as [bo|] eqn:Hbo; cbn [reading] in Hi;
      [|discriminate Hi].
    exists hr, ho, br, bo. repeat split; assumption.
Qed.

Lemma getPullRequest_author_witness :
  (exists info,
     result_of (getPullRequest (sample_constants 1000)
                  (sample_service accented_client) (Some 42)) = Return info
     /\ user_login (user info) = lit "alice")
  /\ (exists info,
        result_of (getPullRequest (sample_constants 1000)
                     (sample_service ghost_client) (Some 42)) = Return info
        /\ user_login (user info) = lit "unknown")
  /\ (exists info,
        result_of (getPullRequest (sample_constants 1000)
                     (sample_service anonymous_client) (Some 42))
        = Return info
        /\ user_login (user info) = lit "unknown").
Proof.
  split; [|split].
  - destruct (proj1 (@getPullRequest_author (sample_constants 1000)
                       (sample_service accented_client) (Some 42)
                       sample_pull eq_refl)
                    (sample_repo "o/r" "r" "o")
                    (mkOwnerData (Some (lit "o")))
                    (sample_repo "o/r" "r" "o")
                    (mkOwnerData (Some (lit "o")))
                    eq_refl eq_refl eq_refl eq_refl)
      as [info [Hr [_ [Hl _]]]].
    exists info. split; [exact Hr|].
    apply (Hl (mkUserData (Some (lit "alice"))) (lit "alice"));
      [reflexivity | reflexivity | discriminate].
  - destruct (proj1 (@getPullRequest_author (sample_constants 1000)
                       (sample_service ghost_client) (Some 42)
                       ghost_pull eq_refl)
                    (sample_repo "o/r" "r" "o")
                    (mkOwnerData (Some (lit "o")))
                    (sample_repo "o/r" "r" "o")
                    (mkOwnerData (Some (lit "o")))
                    eq_refl eq_refl eq_refl eq_refl)
      as [info [Hr [_ [_ [Hnone _]]]]].
    exists info. split; [exact Hr | exact (Hnone eq_refl)].
  - destruct (proj1 (@getPullRequest_author (sample_constants 1000)
                       (sample_service anonymous_client) (Some 42)
                       anonymous_pull eq_refl)
                    (sample_repo "o/r" "r" "o")
                    (mkOwnerData (Some (lit "o")))
                    (sample_repo "o/r" "r" "o")
                    (mkOwnerData (Some (lit "o")))
                    eq_refl eq_refl eq_refl eq_refl)
      as [info [Hr [_ [_ [_ [Hnull _]]]]]].
    exists info. split; [exact Hr|].
    exact (Hnull (mkUserData None) eq_refl eq_refl).
Defined.

(** ** C7: the applicability check *)

Lemma truthy_opt_iff (o : option jsstring) :
  truthy_opt o = true <-> exists s, o = Some s /\ s <> [].
Proof.
  destruct o as [[|c u]|]; cbn; split; try discriminate.
  - intros [w [[= <-] Hw]]. contradiction.
  - intros _. exists (c :: u). split; [reflexivity | discriminate].
  - reflexivity.
  - intros [w [[=] _]].
Qed.

Lemma positive_num_true (o : option Z) :
  positive_num o = true <-> exists n, o = Some n /\ 0 < n.
Proof.
  destruct o as [n|]; cbn.
  - rewrite Z.ltb_lt. split.
    + intros H. now exists n.
    + now intros [m [[= <-] Hm]].
  - split; [discriminate | now intros [m [[=] _]]].
Qed.

Lemma positive_num_false (o : option Z) :
  positive_num o = false <-> o = None \/ exists n, o = Some n /\ n <= 0.
Proof.
  destruct o as [n|]; cbn.
  - rewrite Z.ltb_ge. split.
    + intros H. right. now exists n.
    + intros [[=]|[m [[= <-] Hm]]]. exact Hm.
  - split; [now left | reflexivity].
Qed.

(** A positive number is truthy, so the first conjunct of the source
    expression decides nothing on its own. *)
Lemma shouldExtract_unfold (inputs : ActionInputs) :
  shouldExtract inputs
  = positive_num (pullNumber inputs)
    && truthy_opt (repoName inputs) && truthy_opt (githubToken inputs).
Proof.
  unfold shouldExtract. f_equal. f_equal.
  destruct (pullNumber inputs) as [n|]; cbn; [|reflexivity].
  destruct (Z.ltb_spec 0 n) as [Hpos|Hneg]; [|apply andb_false_r].
  destruct (Z.eqb_spec n 0); [lia | reflexivity].
Qed.

(** C7: shouldExtract is a function of the inputs alone, into the
    booleans.  It is true exactly when pullNumber is there and strictly
    positive and repoName and githubToken are there (defined and not
    empty), and false exactly when one of the three fails. *)
Theorem shouldExtract_iff (inputs : ActionInputs) :
  (shouldExtract inputs = true <->
   (exists n, pullNumber inputs = Some n /\ 0 < n)
   /\ (exists r, repoName inputs = Some r /\ r <> [])
   /\ (exists t, githubToken inputs = Some t /\ t <> []))
  /\ (shouldExtract inputs = false <->
      (pullNumber inputs = None
       \/ exists n, pullNumber inputs = Some n /\ n <= 0)
      \/ truthy_opt (repoName inputs) = false
      \/ truthy_opt (githubToken inputs) = false).
Proof.
  rewrite shouldExtract_unfold. split.
  - rewrite !andb_true_iff, positive_num_true, !truthy_opt_iff. tauto.
  - rewrite !andb_false_iff, positive_num_false. tauto.
Qed.

(** All eight combinations of the three conditions. *)
Lemma shouldExtract_table (n : Z) (r t : jsstring) :
  0 < n -> r <> [] -> t <> [] ->
  shouldExtract (mkActionInputs (Some n) (Some r) (Some t) None) = true
  /\ shouldExtract (mkActionInputs None (Some r) (Some t) None) = false
  /\ shouldExtract (mkActionInputs (Some n) None (Some t) None) = false
  /\ shouldExtract (mkActionInputs (Some n) (Some r) None None) = false
  /\ shouldExtract (mkActionInputs None None (Some t) None) = false
  /\ shouldExtract (mkActionInputs None (Some r) None None) = false
  /\ shouldExtract (mkActionInputs (Some n) None None None) = false
  /\ shouldExtract (mkActionInputs None None None None) = false
  /\ shouldExtract (mkActionInputs (Some 0) (Some r) (Some t) None) = false
  /\ shouldExtract (mkActionInputs (Some (- n)) (Some r) (Some t) None)
     = false.
Proof.
  intros Hn Hr Ht. rewrite !shouldExtract_unfold.
  destruct r as [|c r]; [contradiction|].
  destruct t as [|d t]; [contradiction|].
  cbn [pullNumber repoName githubToken positive_num truthy_opt truthy].
  assert (H1 : (0 <? n) = true) by now apply Z.ltb_lt.
  assert (H2 : (0 <? - n) = false) by (apply Z.ltb_ge; lia).
  rewrite H1, H2. repeat split; reflexivity.
Qed.

(** ** C6: construction without an adapter *)

Lemma buildOctokitConfig_returns config :
  exists cfg, result_of (buildOctokitConfig config) = Return cfg.
Proof.
  unfold buildOctokitConfig.
  destruct (baseUrl config) as [[|c url]|]; cbn [truthy];
    try (eexists; reflexivity).
  destruct (negb (endsWith (c :: url) API_V3)); eexists; reflexivity.
Qed.

(** The constructor either returns a service or raises a new Error that
    wraps the text of what the client library raised. *)
Lemma new_GitHubService_outcome env config :
  (exists svc, result_of (new_GitHubService env config) = Return svc)
  \/ (exists cfg e,
        newOctokit env cfg = Err e
        /\ result_of (new_GitHubService env config)
           = Throw (new_Error
                      (lit "Failed to initialize GitHub API client: "
                       ++ error_toString e))).
Proof.
  destruct (buildOctokitConfig_returns config) as [cfg Hcfg].
  unfold new_GitHubService, log.
  rewrite (bind_return _ _ Hcfg), !bind_emit.
  destruct (newOctokit env cfg) as [client|e] eqn:Hnew.
  - left. eexists. rewrite bind_request_ok. reflexivity.
  - right. exists cfg, e. split; [exact Hnew|].
    rewrite bind_request_err. reflexivity.
Qed.

Lemma new_GitHubService_not_running env config :
  result_of (new_GitHubService env config) <> Running.
Proof.
  destruct (new_GitHubService_outcome env config) as [[svc H]|[cfg [e [_ H]]]];
    rewrite H; discriminate.
Qed.

Lemma create_without_inputs env inputs :
  truthy_opt (repoName inputs) = false
  \/ truthy_opt (githubToken inputs) = false ->
  result_of (create env inputs) = Return (mkPRExtractor None).
Proof.
  unfold create.
  destruct (repoName inputs) as [[|c rn]|], (githubToken inputs) as [[|d tk]|];
    cbn [truthy_opt truthy andb]; intros [H|H];
    try discriminate H; reflexivity.
Qed.

Lemma create_with_inputs env inputs rn tk :
  repoName inputs = Some rn -> githubToken inputs = Some tk ->
  rn <> [] -> tk <> [] ->
  result_of (create env inputs)
  = match parseRepoName env rn with
    | Err _ => Return (mkPRExtractor None)
    | Ok parsed =>
        match result_of (new_GitHubService env
                           (mkServiceConfig tk (parsed_owner parsed)
                              (parsed_repo parsed) (githubApiUrl inputs))) with
        | Return svc => Return (mkPRExtractor (Some svc))
        | _ => Return (mkPRExtractor None)
        end
    end.
Proof.
  intros Hrn Htk Hr Ht. unfold create. rewrite Hrn, Htk.
  destruct rn as [|c rn]; [contradiction|].
  destruct tk as [|d tk]; [contradiction|].
  cbn [truthy andb]. unfold log.
  destruct (parseRepoName env (c :: rn)) as [parsed|e].
  - rewrite bind_request_ok, bind_emit.
    set (cfg := mkServiceConfig (d :: tk) (parsed_owner parsed)
                                (parsed_repo parsed) (githubApiUrl inputs)).
    pose proof (new_GitHubService_not_running env cfg) as Hrun.
    destruct (new_GitHubService env cfg) as [t [svc|e|]];
      [reflexivity | reflexivity | now contradiction Hrun].
  - rewrite bind_request_err. reflexivity.
Qed.

(** C6, as the code has it: create returns an extractor for every input
    bundle and never raises.  The extractor has no adapter when repoName
    or githubToken is missing or empty, when parsing the repository name
    fails, and when constructing the adapter fails; it has the adapter
    otherwise.  On an extractor without adapter performExtraction raises
    an Error with the message 'GitHubService not provided' before it
    calls or logs anything. *)
Theorem create_never_throws K env inputs :
  (exists extractor, result_of (create env inputs) = Return extractor)
  /\ (truthy_opt (repoName inputs) = false
      \/ truthy_opt (githubToken inputs) = false ->
      result_of (create env inputs) = Return (mkPRExtractor None))
  /\ (forall rn e,
        repoName inputs = Some rn -> parseRepoName env rn = Err e ->
        result_of (create env inputs) = Return (mkPRExtractor None))
  /\ (forall rn tk parsed e,
        repoName inputs = Some rn -> githubToken inputs = Some tk ->
        parseRepoName env rn = Ok parsed ->
        result_of (new_GitHubService env
                     (mkServiceConfig tk (parsed_owner parsed)
                        (parsed_repo parsed) (githubApiUrl inputs)))
        = Throw e ->
        result_of (create env inputs) = Return (mkPRExtractor None))
  /\ (forall rn tk parsed svc,
        repoName inputs = Some rn -> githubToken inputs = Some tk ->
        rn <> [] -> tk <> [] ->
        parseRepoName env rn = Ok parsed ->
        result_of (new_GitHubService env
                     (mkServiceConfig tk (parsed_owner parsed)
                        (parsed_repo parsed) (githubApiUrl inputs)))
        = Return svc ->
        result_of (create env inputs) = Return (mkPRExtractor (Some svc)))
  /\ (forall fuel anyInputs,
        performExtraction K env fuel (mkPRExtractor None) anyInputs
        = ([], Throw (new_Error (lit "GitHubService not provided")))).
Proof.
  assert (Hcases :
            truthy_opt (repoName inputs) = false
            \/ truthy_opt (githubToken inputs) = false
            \/ exists rn tk, repoName inputs = Some rn
                             /\ githubToken inputs = Some tk
                             /\ rn <> [] /\ tk <> []).
  { destruct (truthy_opt (repoName inputs)) eqn:Hr; [|now left].
    destruct (truthy_opt (githubToken inputs)) eqn:Ht; [|now right; left].
    apply truthy_opt_iff in Hr, Ht.
    destruct Hr as [rn [Hrn Hr]], Ht as [tk [Htk Ht]].
    right. right. now exists rn, tk. }
  split; [|split; [|split; [|split; [|split]]]].
  - destruct Hcases as [H|[H|[rn [tk [Hrn [Htk [Hr Ht]]]]]]].
    + eexists. apply create_without_inputs. now left.
    + eexists. apply create_without_inputs. now right.
    + rewrite (create_with_inputs env inputs Hrn Htk Hr Ht).
      destruct (parseRepoName env rn) as [parsed|e]; [|eexists; reflexivity].
      destruct (result_of _); eexists; reflexivity.
  - apply create_without_inputs.
  - intros rn e Hrn Hparse.
    destruct Hcases as [H|[H|[rn' [tk [Hrn' [Htk [Hr Ht]]]]]]].
    + apply create_without_inputs. now left.
    + apply create_without_inputs. now right.
    + rewrite (create_with_inputs env inputs Hrn' Htk Hr Ht).
      rewrite Hrn in Hrn'. injection Hrn' as <-. now rewrite Hparse.
  - intros rn tk parsed e Hrn Htk Hparse Hnew.
    destruct Hcases as [H|[H|[rn' [tk' [Hrn' [Htk' [Hr Ht]]]]]]].
    + apply create_without_inputs. now left.
    + apply create_without_inputs. now right.
    + rewrite (create_with_inputs env inputs Hrn' Htk' Hr Ht).
      rewrite Hrn in Hrn'. injection Hrn' as <-.
      rewrite Htk in Htk'. injection Htk' as <-.
      now rewrite Hparse, Hnew.
  - intros rn tk parsed svc Hrn Htk Hr Ht Hparse Hnew.
    rewrite (create_with_inputs env inputs Hrn Htk Hr Ht).
    now rewrite Hparse, Hnew.
  - reflexivity.
Qed.

Lemma create_never_throws_witness :
  result_of (create (sample_env (Err unauthorized)) sample_inputs)
  = Return (mkPRExtractor None)
  /\ result_of (create (sample_env (Ok short_client))
                       (mkActionInputs (Some 42) None (Some (lit "ghp_0123"))
                                       None))
     = Return (mkPRExtractor None).
Proof.
  pose proof (@create_never_throws (sample_constants 1000)
                (sample_env (Err unauthorized)) sample_inputs)
    as [_ [_ [_ [Hnew _]]]].
  pose proof (@create_never_throws (sample_constants 1000)
                (sample_env (Ok short_client))
                (mkActionInputs (Some 42) None (Some (lit "ghp_0123")) None))
    as [_ [Hmissing _]].
  split.
  - apply (Hnew (lit "o/r") (lit "ghp_0123")
                (mkParsedRepo (lit "o") (lit "r"))
                (new_Error (lit "Failed to initialize GitHub API client: "
                            ++ error_toString unauthorized)));
      reflexivity.
  - apply Hmissing. left. reflexivity.
Defined.

(** C6 as stated fails on the message only: the error raised on an
    extractor without adapter reads 'GitHubService not provided', which
    is not the string 'GithubService not provided'. *)
Lemma precondition_message_spelling :
  result_of (performExtraction (sample_constants 1000)
               (sample_env (Ok short_client)) 1 (mkPRExtractor None)
               sample_inputs)
  = Throw (new_Error (lit "GitHubService not provided"))
  /\ err_message (new_Error (lit "GitHubService not provided"))
     <> lit "GithubService not provided".
Proof. split; [reflexivity | discriminate]. Qed.

(** ** C9: the assembled record *)

Lemma join_two (sep a b : jsstring) : join sep [a; b] = a ++ sep ++ b.
Proof. reflexivity. Qed.

Lemma join_cons (sep a b : jsstring) rest :
  join sep (a :: b :: rest) = a ++ sep ++ join sep (b :: rest).
Proof. reflexivity. Qed.

(** C9: the record of a successful extraction has, as body, the body of
    the fetched metadata, or the empty string when that body is null;
    and, as changed_files, the filenames of the fetched file list, in
    the order of the list, joined by one newline character. *)
Theorem performExtraction_record K env fuel extractor inputs record :
  result_of (performExtraction K env fuel extractor inputs) = Return record ->
  exists svc prData files,
    githubService extractor = Some svc
    /\ result_of (getPullRequest K svc (pullNumber inputs)) = Return prData
    /\ result_of (getPullRequestFiles K fuel svc (pullNumber inputs))
       = Return files
    /\ (body prData = None -> prd_body record = lit "")
    /\ (forall b, body prData = Some b -> prd_body record = b)
    /\ prd_changed_files record = join [10%N] (map filename files)
    /\ prd_changed_files_list record = files.
Proof.
  unfold performExtraction. intros H.
  destruct (githubService extractor) as [svc|]; [|discriminate H].
  apply result_bind_inv in H. destruct H as [prData [Hpr H]].
  apply result_bind_inv in H. destruct H as [files [Hfiles H]].
  apply result_bind_inv in H. destruct H as [path [Hpath H]].
  cbn in H. injection H as <-.
  exists svc, prData, files.
  repeat split; try assumption.
  - intros Hb. cbn. now rewrite Hb.
  - intros b Hb. cbn. rewrite Hb. now destruct b.
Qed.

Lemma performExtraction_record_witness :
  exists record,
    result_of (performExtraction (sample_constants 1000)
                 (sample_env (Ok short_client)) 5
                 (mkPRExtractor (Some (sample_service short_client)))
                 sample_inputs) = Return record
    /\ prd_body record = lit ""
    /\ prd_changed_files record = lit "a.ts
b.ts"
    /\ prd_diff_file record = lit "/tmp/augment/pr-42.diff".
Proof.
  eexists. split; [reflexivity|].
  destruct (@performExtraction_record (sample_constants 1000)
              (sample_env (Ok short_client)) 5
              (mkPRExtractor (Some (sample_service short_client)))
              sample_inputs _ eq_refl)
    as [svc [prData [files [_ [_ [_ [_ [_ [Hjoin _]]]]]]]]].
  repeat split; reflexivity.
Defined.

(** ** C5: failures are logged and passed on *)

Section Failures.

Variable K : Constants.
Variable env : Collaborators.
Variable svc : GitHubService.
Variable pn : option Z.

Let askDiff : Event := PullsGetDiff (svc_owner svc) (svc_repo svc) pn.

Let diffAnswer : result jsstring :=
  pulls_get_diff (octokit svc) (svc_owner svc) (svc_repo svc) pn.

Let diffLog (e : JsError) : Event :=
  Log LError (API_ERROR K ++ lit ": Failed to fetch PR diff") (ErrorArg e).

Let writeLog (e : JsError) : Event :=
  Log LError (lit "Failed to write diff file") (ErrorArg e).

Lemma getPullRequestDiff_rethrows e :
  diffAnswer = Err e ->
  getPullRequestDiff K svc pn
  = ([Log LDebug (lit "Fetching diff for PR " ++ showPull pn) NoArg;
      askDiff; diffLog e], Throw e).
Proof.
  unfold diffAnswer. intros H. unfold getPullRequestDiff, log.
  rewrite H, bind_emit, bind_request_err. reflexivity.
Qed.

Lemma getPullRequestDiff_run text :
  diffAnswer = Ok text ->
  getPullRequestDiff K svc pn
  = ([Log LDebug (lit "Fetching diff for PR " ++ showPull pn) NoArg;
      askDiff], Return (toPullRequestDiff (MAX_DIFF_SIZE K) text)).
Proof.
  unfold diffAnswer. intros H. unfold getPullRequestDiff, log.
  rewrite H, bind_emit, bind_request_ok. reflexivity.
Qed.

Lemma getPullRequestFiles_rethrows pages n fuel e :
  (1 <= n <= fuel)%nat ->
  (forall p, (1 <= p < n)%nat ->
     pulls_listFiles (octokit svc) (svc_owner svc) (svc_repo svc) pn
                     PER_PAGE p = Ok (pages p)) ->
  (forall p, (1 <= p < n)%nat -> (PER_PAGE <= List.length (pages p))%nat) ->
  pulls_listFiles (octokit svc) (svc_owner svc) (svc_repo svc) pn
                  PER_PAGE n = Err e ->
  let run := getPullRequestFiles K fuel svc pn in
  result_of run = Throw e
  /\ calls (trace run)
     = map (PullsListFiles (svc_owner svc) (svc_repo svc) pn PER_PAGE)
           (seq 1 n)
  /\ error_logs (trace run)
     = [(API_ERROR K ++ lit ": Failed to fetch PR files", ErrorArg e)].
Proof.
  intros Hn Hok Hfull Herr run.
  destruct (@fetchPages_until_error svc pn pages n Hfull (n - 1)%nat e
              1%nat [] fuel) as [Hr [Hc He]]; try lia; try assumption.
  replace (S (n - 1)) with n in Hc by lia.
  assert (Hrun : run
                 = (Log LDebug (lit "Fetching files for PR " ++ showPull pn)
                        NoArg
                    :: trace (fetchPages fuel svc pn 1 []) ++
                       [Log LError
                            (API_ERROR K ++ lit ": Failed to fetch PR files")
                            (ErrorArg e)],
                    Throw e)).
  { unfold run, getPullRequestFiles, log.
    rewrite bind_emit, (bind_throw _ _ Hr). reflexivity. }
  rewrite Hrun. cbn [result_of trace fst snd].
  split; [reflexivity|].
  change (?x :: ?t ++ ?u) with ([x] ++ t ++ u).
  rewrite !calls_app, !error_logs_app, Hc, He.
  split; [apply app_nil_r | reflexivity].
Qed.

(** writeDiffFile when the diff request fails: the failure is logged by
    getPullRequestDiff and again by writeDiffFile. *)
Lemma writeDiffFile_rethrows_fetch e :
  diffAnswer = Err e ->
  writeDiffFile K env pn svc
  = ([Log LDebug (lit "Fetching diff for PR " ++ showPull pn) NoArg;
      askDiff; diffLog e; writeLog e], Throw e).
Proof.
  intros H. unfold writeDiffFile.
  rewrite (getPullRequestDiff_rethrows H). reflexivity.
Qed.

Lemma truncation_warning_trace (d : PullRequestDiff) :
  calls (trace (if truncated d
                then log LWarning (lit "PR diff was truncated due to size")
                         NoArg
                else ret tt)) = []
  /\ error_logs (trace (if truncated d
                        then log LWarning
                                 (lit "PR diff was truncated due to size")
                                 NoArg
                        else ret tt)) = []
  /\ result_of (if truncated d
                then log LWarning (lit "PR diff was truncated due to size")
                         NoArg
                else ret tt) = Return tt.
Proof. destruct (truncated d); repeat split; reflexivity. Qed.

Lemma writeDiffFile_rethrows_mkdir text n e :
  diffAnswer = Ok text -> pn = Some n ->
  ensureDirectoryExists env (TEMP_DIR K) = Err e ->
  let run := writeDiffFile K env pn svc in
  result_of run = Throw e
  /\ calls (trace run) = [askDiff; EnsureDirectoryExists (TEMP_DIR K)]
  /\ error_logs (trace run) = [(lit "Failed to write diff file", ErrorArg e)].
Proof.
  intros Hd Hn He run. unfold run, writeDiffFile.
  rewrite (getPullRequestDiff_run Hd).
  set (d := toPullRequestDiff (MAX_DIFF_SIZE K) text).
  subst pn. cbn [bind lift]. rewrite He. unfold log.
  destruct (truncated d); cbn; repeat split; reflexivity.
Qed.

Lemma writeDiffFile_rethrows_write text n e :
  diffAnswer = Ok text -> pn = Some n ->
  ensureDirectoryExists env (TEMP_DIR K) = Ok tt ->
  let d := toPullRequestDiff (MAX_DIFF_SIZE K) text in
  let path := path_join env (TEMP_DIR K)
                (replace (DIFF_FILE_PATTERN K) (lit "{pullNumber}")
                         (showZ n)) in
  writeFile env path (content d) = Err e ->
  let run := writeDiffFile K env pn svc in
  result_of run = Throw e
  /\ calls (trace run)
     = [askDiff; EnsureDirectoryExists (TEMP_DIR K);
        FsWriteFile path (content d)]
  /\ error_logs (trace run) = [(lit "Failed to write diff file", ErrorArg e)].
Proof.
  intros Hd Hn Hdir d path Hw run. unfold run, writeDiffFile.
  rewrite (getPullRequestDiff_run Hd). fold d.
  subst pn. cbn [bind lift]. fold path. rewrite Hdir, Hw. unfold log.
  destruct (truncated d); cbn; repeat split; reflexivity.
Qed.

(** testAuthentication when the request fails: a digest of the failure
    is logged and a new Error is raised in its place. *)
Lemma testAuthentication_replaces api e :
  rest_user (octokit svc) = Some api ->
  getAuthenticated api = Some (Err e) ->
  testAuthentication svc
  = ([Log LDebug
          (lit "Testing GitHub authentication and API connectivity") NoArg;
      UserGetAuthenticated;
      Log LError (lit "Authentication test failed")
          (DigestArg (err_message e) (err_status e))],
     Throw (new_Error
              (if status_is e 401 then AUTHENTICATION_FAILED
               else if status_is e 404 then ENDPOINT_NOT_FOUND
               else lit "GitHub API connectivity test failed: "
                    ++ err_message e))).
Proof.
  intros Hu Hg. unfold testAuthentication, log.
  rewrite bind_emit, Hu, !bind_ret. cbn beta.
  rewrite Hg, !bind_ret. cbn beta.
  rewrite bind_request_err. cbn [trace result_of fst snd try_catch].
  rewrite bind_emit.
  now destruct (status_is e 401), (status_is e 404).
Qed.

(** A step of performExtraction that raises ends the extraction with
    the same error: no record is returned. *)
Lemma performExtraction_stops fuel inputs e :
  pullNumber inputs = pn ->
  let run := performExtraction K env fuel (mkPRExtractor (Some svc)) inputs in
  (result_of (getPullRequest K svc pn) = Throw e -> result_of run = Throw e)
  /\ (forall prData,
        result_of (getPullRequest K svc pn) = Return prData ->
        result_of (getPullRequestFiles K fuel svc pn) = Throw e ->
        result_of run = Throw e)
  /\ (forall prData files,
        result_of (getPullRequest K svc pn) = Return prData ->
        result_of (getPullRequestFiles K fuel svc pn) = Return files ->
        result_of (writeDiffFile K env pn svc) = Throw e ->
        result_of run = Throw e).
Proof.
  intros Hpn run. unfold run, performExtraction.
  cbn [githubService]. rewrite Hpn.
  split; [|split].
  - intros H. now rewrite (bind_throw _ _ H).
  - intros prData Hp Hf.
    now rewrite (bind_return _ _ Hp), (bind_throw _ _ Hf).
  - intros prData files Hp Hf Hw.
    now rewrite (bind_return _ _ Hp), (bind_return _ _ Hf),
      (bind_throw _ _ Hw).
Qed.

End Failures.

(** C5, as the code has it.  When the request of the metadata fetch, a
    page request of the files fetch or the request of the diff fetch
    fails, the method logs the failure at error level with the error
    attached and re-raises that same error; each request is made once.
    writeDiffFile does the same when the diff fetch, the directory
    creation or the file write fails, and stops at the step that failed.
    performExtraction ends with the error of the first step that raises
    and returns no record.  testAuthentication is the exception: it logs
    a digest of the failure and raises a new Error in its place, whose
    message depends on the status (401, 404, other). *)
Theorem failures_logged_and_rethrown K env svc pn e :
  (pulls_get (octokit svc) (svc_owner svc) (svc_repo svc) pn = Err e ->
   let run := getPullRequest K svc pn in
   result_of run = Throw e
   /\ calls (trace run) = [PullsGet (svc_owner svc) (svc_repo svc) pn]
   /\ error_logs (trace run) = [(fetchFailureLog K pn e, ErrorArg e)])
  /\ (forall pages n fuel,
        (1 <= n <= fuel)%nat ->
        (forall p, (1 <= p < n)%nat ->
           pulls_listFiles (octokit svc) (svc_owner svc) (svc_repo svc) pn
                           PER_PAGE p = Ok (pages p)) ->
        (forall p, (1 <= p < n)%nat ->
           (PER_PAGE <= List.length (pages p))%nat) ->
        pulls_listFiles (octokit svc) (svc_owner svc) (svc_repo svc) pn
                        PER_PAGE n = Err e ->
        let run := getPullRequestFiles K fuel svc pn in
        result_of run = Throw e
        /\ calls (trace run)
           = map (PullsListFiles (svc_owner svc) (svc_repo svc) pn PER_PAGE)
                 (seq 1 n)
        /\ error_logs (trace run)
           = [(API_ERROR K ++ lit ": Failed to fetch PR files", ErrorArg e)])
  /\ (pulls_get_diff (octokit svc) (svc_owner svc) (svc_repo svc) pn = Err e ->
      let run := getPullRequestDiff K svc pn in
      let again := writeDiffFile K env pn svc in
      result_of run = Throw e
      /\ calls (trace run)
         = [PullsGetDiff (svc_owner svc) (svc_repo svc) pn]
      /\ error_logs (trace run)
         = [(API_ERROR K ++ lit ": Failed to fetch PR diff", ErrorArg e)]
      /\ result_of again = Throw e
      /\ calls (trace again)
         = [PullsGetDiff (svc_owner svc) (svc_repo svc) pn]
      /\ error_logs (trace again)
         = [(API_ERROR K ++ lit ": Failed to fetch PR diff", ErrorArg e);
            (lit "Failed to write diff file", ErrorArg e)])
  /\ (forall text n,
        pulls_get_diff (octokit svc) (svc_owner svc) (svc_repo svc) pn
        = Ok text ->
        pn = Some n ->
        ensureDirectoryExists env (TEMP_DIR K) = Err e ->
        let run := writeDiffFile K env pn svc in
        result_of run = Throw e
        /\ calls (trace run)
           = [PullsGetDiff (svc_owner svc) (svc_repo svc) pn;
              EnsureDirectoryExists (TEMP_DIR K)]
        /\ error_logs (trace run)
           = [(lit "Failed to write diff file", ErrorArg e)])
  /\ (forall text n,
        pulls_get_diff (octokit svc) (svc_owner svc) (svc_repo svc) pn
        = Ok text ->
        pn = Some n ->
        ensureDirectoryExists env (TEMP_DIR K) = Ok tt ->
        let d := toPullRequestDiff (MAX_DIFF_SIZE K) text in
        let path := path_join env (TEMP_DIR K)
                      (replace (DIFF_FILE_PATTERN K) (lit "{pullNumber}")
                               (showZ n)) in
        writeFile env path (content d) = Err e ->
        let run := writeDiffFile K env pn svc in
        result_of run = Throw e
        /\ calls (trace run)
           = [PullsGetDiff (svc_owner svc) (svc_repo svc) pn;
              EnsureDirectoryExists (TEMP_DIR K);
              FsWriteFile path (content d)]
        /\ error_logs (trace run)
           = [(lit "Failed to write diff file", ErrorArg e)])
  /\ (forall fuel inputs,
        pullNumber inputs = pn ->
        let run :=
          performExtraction K env fuel (mkPRExtractor (Some svc)) inputs in
        (result_of (getPullRequest K svc pn) = Throw e ->
         result_of run = Throw e)
        /\ (forall prData,
              result_of (getPullRequest K svc pn) = Return prData ->
              result_of (getPullRequestFiles K fuel svc pn) = Throw e ->
              result_of run = Throw e)
        /\ (forall prData files,
              result_of (getPullRequest K svc pn) = Return prData ->
              result_of (getPullRequestFiles K fuel svc pn) = Return files ->
              result_of (writeDiffFile K env pn svc) = Throw e ->
              result_of run = Throw e))
  /\ (forall api,
        rest_user (octokit svc) = Some api ->
        getAuthenticated api = Some (Err e) ->
        let run := testAuthentication svc in
        result_of run
        = Throw (new_Error
                   (if status_is e 401 then AUTHENTICATION_FAILED
                    else if status_is e 404 then ENDPOINT_NOT_FOUND
                    else lit "GitHub API connectivity test failed: "
                         ++ err_message e))
        /\ calls (trace run) = [UserGetAuthenticated]
        /\ error_logs (trace run)
           = [(lit "Authentication test failed",
               DigestArg (err_message e) (err_status e))]).
Proof.
  split; [|split; [|split; [|split; [|split; [|split]]]]].
  - intros H run. unfold run.
    rewrite (getPullRequest_rethrows_request K svc pn H).
    repeat split; reflexivity.
  - intros pages n fuel. apply getPullRequestFiles_rethrows.
  - intros H run again. unfold run, again.
    rewrite (getPullRequestDiff_rethrows K svc pn H),
      (writeDiffFile_rethrows_fetch K env svc pn H).
    repeat split; reflexivity.
  - intros text n. apply writeDiffFile_rethrows_mkdir.
  - intros text n. apply writeDiffFile_rethrows_write.
  - intros fuel inputs. apply performExtraction_stops.
  - intros api Hu Hg run. unfold run.
    rewrite (testAuthentication_replaces svc Hu Hg).
    repeat split; reflexivity.
Qed.

Lemma failures_logged_and_rethrown_witness :
  result_of (getPullRequestDiff (sample_constants 1000)
               (sample_service (failing_client not_found)) (Some 42))
  = Throw not_found
  /\ error_logs (trace (writeDiffFile (sample_constants 1000)
                          (sample_env (Ok short_client)) (Some 42)
                          (sample_service (failing_client not_found))))
     = [(lit "GitHub API error: Failed to fetch PR diff", ErrorArg not_found);
        (lit "Failed to write diff file", ErrorArg not_found)]
  /\ result_of (performExtraction (sample_constants 1000)
                  (sample_env (Ok short_client)) 5
                  (mkPRExtractor
                     (Some (sample_service (failing_client not_found))))
                  sample_inputs)
     = Throw not_found.
Proof.
  pose proof (@failures_logged_and_rethrown (sample_constants 1000)
                (sample_env (Ok short_client))
                (sample_service (failing_client not_found)) (Some 42)
                not_found)
    as [_ [_ [Hdiff [_ [_ [Hrun _]]]]]].
  destruct (Hdiff eq_refl) as [Hr [_ [_ [_ [_ Hlogs]]]]].
  split; [exact Hr|]. split; [exact Hlogs|].
  apply (Hrun 5%nat sample_inputs eq_refl). reflexivity.
Defined.

(** C5 as stated fails for the authentication test: on a 401 from the
    API client, testAuthentication raises a new Error with a message of
    its own, not the client's error. *)
Lemma testAuthentication_raises_another_error :
  result_of (testAuthentication (sample_service (failing_client unauthorized)))
  = Throw (new_Error AUTHENTICATION_FAILED)
  /\ new_Error AUTHENTICATION_FAILED <> unauthorized
  /\ error_logs (trace (testAuthentication
                          (sample_service (failing_client unauthorized))))
     = [(lit "Authentication test failed",
         DigestArg (lit "Bad credentials") (Some 401))].
Proof. repeat split; try reflexivity; discriminate. Qed.

(** * Further properties of the adapter and the extractor *)

(** ** The base URL adjustment, applied again *)

(** X1: adjusting a base URL a second time changes nothing; the adjusted
    URL starts with the URL that was supplied and adds at most the seven
    code units of '/api/v3'; and the URL is left as it is exactly when it
    already ends with '/api/v3'. *)
Theorem adjustBaseUrl_idempotent (url : jsstring) :
  adjustBaseUrl (adjustBaseUrl url) = adjustBaseUrl url
  /\ (exists added,
        adjustBaseUrl url = url ++ added /\ (List.length added <= 7)%nat)
  /\ (adjustBaseUrl url = url <-> endsWith url API_V3 = true).
Proof.
  split; [|split].
  - apply adjustBaseUrl_unchanged, adjustBaseUrl_endsWith.
  - destruct (endsWith url API_V3) eqn:E.
    + exists []. rewrite app_nil_r. split; [|cbn; lia].
      now apply adjustBaseUrl_unchanged.
    + rewrite (adjustBaseUrl_appended url E).
      destruct (endsWith url (lit "/")); eexists; split;
        try reflexivity; vm_compute; lia.
  - split.
    + intros H. rewrite <- H. apply adjustBaseUrl_endsWith.
    + apply adjustBaseUrl_unchanged.
Qed.

(** ** Size of the diff content *)

Lemma byteLength_le_triple (s : jsstring) : byteLength s <= 3 * length s.
Proof.
  assert (H : forall n t, (List.length t <= n)%nat ->
                          byteLength t <= 3 * length t).
  { induction n as [|n IH]; intros t Hn.
    - destruct t; [cbn; lia | cbn in Hn; lia].
    - destruct t as [|c t]; [cbn; lia|].
      cbn [List.length] in Hn.
      assert (Ht : byteLength t <= 3 * length t) by (apply IH; lia).
      assert (Hl : length (c :: t) = 1 + length t)
        by (unfold length; cbn [List.length]; lia).
      rewrite Hl. cbn [byteLength].
      destruct (c <? 128)%N; [lia|].
      destruct (c <? 2048)%N; [lia|].
      destruct (is_high_surrogate c); [|lia].
      destruct t as [|d t']; [unfold length; cbn; lia|].
      destruct (is_low_surrogate d); [|lia].
      assert (Ht' : byteLength t' <= 3 * length t')
        by (apply IH; cbn [List.length] in Hn; lia).
      unfold length in *. cbn [List.length] in *. lia. }
  apply (H (List.length s)). lia.
Qed.

Lemma byteLength_nonneg (s : jsstring) : 0 <= byteLength s.
Proof.
  pose proof (length_le_byteLength s). pose proof (length_nonneg s). lia.
Qed.

(** Cutting a text short never adds bytes, also when the cut separates
    the two halves of a surrogate pair. *)
Lemma byteLength_prefix (a b : jsstring) : byteLength a <= byteLength (a ++ b).
Proof.
  assert (H : forall n t, (List.length t <= n)%nat ->
                          byteLength t <= byteLength (t ++ b)).
  { induction n as [|n IH]; intros t Hn.
    - destruct t; [cbn [app byteLength]; apply byteLength_nonneg
                  | cbn in Hn; lia].
    - destruct t as [|c t];
        [cbn [app byteLength]; apply byteLength_nonneg|].
      cbn [List.length] in Hn.
      assert (Ht : byteLength t <= byteLength (t ++ b)) by (apply IH; lia).
      cbn [app byteLength].
      destruct (c <? 128)%N; [lia|].
      destruct (c <? 2048)%N; [lia|].
      destruct (is_high_surrogate c); [|lia].
      destruct t as [|d t'].
      + cbn [app]. pose proof (byteLength_nonneg b).
        destruct b as [|d b']; [lia|].
        destruct (is_low_surrogate d);
          [pose proof (byteLength_nonneg b')|]; lia.
      + cbn [app]. destruct (is_low_surrogate d); [|cbn [app] in Ht; lia].
        assert (Ht' : byteLength t' <= byteLength (t' ++ b))
          by (apply IH; cbn [List.length] in Hn; lia).
        lia. }
  apply (H (List.length a)). lia.
Qed.

Lemma substring_is_prefix (s : jsstring) (m : Z) :
  substring s 0 m = firstn (Z.to_nat (Z.min (Z.max m 0) (length s))) s.
Proof.
  unfold substring.
  pose proof (length_nonneg s) as Hs.
  replace (Z.min (Z.max 0 0) (length s)) with 0 by lia.
  replace (Z.min 0 (Z.min (Z.max m 0) (length s))) with 0 by lia.
  replace (Z.max 0 (Z.min (Z.max m 0) (length s)) - 0)
    with (Z.min (Z.max m 0) (length s)) by lia.
  reflexivity.
Qed.

(** X2: the content that getPullRequestDiff returns is always a prefix of
    the text that the API sent, and its UTF-8 length never exceeds size.
    A content that was not truncated has at most MAX_DIFF_SIZE bytes; a
    truncated one may have more, but never more than three times
    MAX_DIFF_SIZE. *)
Theorem getPullRequestDiff_content_bounds K svc n text :
  pulls_get_diff (octokit svc) (svc_owner svc) (svc_repo svc) n = Ok text ->
  exists d,
    result_of (getPullRequestDiff K svc n) = Return d
    /\ (exists rest, text = content d ++ rest)
    /\ byteLength (content d) <= size d
    /\ (truncated d = false -> byteLength (content d) <= MAX_DIFF_SIZE K)
    /\ (0 <= MAX_DIFF_SIZE K -> byteLength (content d) <= 3 * MAX_DIFF_SIZE K).
Proof.
  intros Hget.
  exists (toPullRequestDiff (MAX_DIFF_SIZE K) text).
  split; [now apply getPullRequestDiff_returns|].
  unfold toPullRequestDiff. cbn [size truncated content].
  destruct (Z.ltb_spec (MAX_DIFF_SIZE K) (byteLength text)) as [Hlt|Hge].
  - rewrite substring_is_prefix.
    set (k := Z.to_nat (Z.min (Z.max (MAX_DIFF_SIZE K) 0) (length text))).
    assert (Hsplit : text = firstn k text ++ skipn k text)
      by (symmetry; apply firstn_skipn).
    split; [now exists (skipn k text)|].
    split; [rewrite Hsplit at 2; apply byteLength_prefix|].
    split; [discriminate|].
    intros Hmax. pose proof (byteLength_le_triple (firstn k text)) as Hb.
    assert (Hk : length (firstn k text) <= MAX_DIFF_SIZE K).
    { unfold length. rewrite length_firstn. subst k.
      pose proof (length_nonneg text). unfold length in *. lia. }
    lia.
  - split; [exists []; now rewrite app_nil_r|].
    split; [lia|]. split; [intros _; exact Hge|].
    intros Hmax. lia.
Qed.

Lemma getPullRequestDiff_content_bounds_witness :
  exists d,
    result_of (getPullRequestDiff (sample_constants 4)
                 (sample_service accented_client) (Some 42)) = Return d
    /\ byteLength (content d) = 6
    /\ truncated d = true.
Proof.
  destruct (@getPullRequestDiff_content_bounds (sample_constants 4)
              (sample_service accented_client) (Some 42) accented_diff
              eq_refl) as [d [Hd _]].
  exists d. split; [exact Hd|].
  cbn in Hd. injection Hd as <-. split; reflexivity.
Defined.

(** ** The list of changed files as one string *)

Lemma count_newline_join (xs : list jsstring) :
  Forall (fun x => ~ In 10%N x) xs ->
  count_occ N.eq_dec (join [10%N] xs) 10%N = (List.length xs - 1)%nat.
Proof.
  induction 1 as [|x rest Hx Hrest IH]; [reflexivity|].
  assert (H0 : count_occ N.eq_dec x 10%N = 0%nat)
    by now apply count_occ_not_In.
  destruct rest as [|y rest]; [cbn [join List.length]; rewrite H0; lia|].
  rewrite join_cons, !count_occ_app, H0.
  unfold jsstring in *. rewrite IH.
  cbn [List.length count_occ].
  destruct (N.eq_dec 10 10) as [_|Hne]; [lia | now contradiction Hne].
Qed.

Lemma length_join (sep : jsstring) (xs : list jsstring) :
  List.length (join sep xs)
  = (list_sum (map (@List.length N) xs)
     + List.length sep * (List.length xs - 1))%nat.
Proof.
  unfold jsstring in *.
  induction xs as [|x rest IH]; [cbn; lia|].
  destruct rest as [|y rest].
  - cbn [join map list_sum fold_right List.length Nat.sub]. lia.
  - rewrite join_cons, !length_app. unfold jsstring in *. rewrite IH.
    cbn [map list_sum fold_right List.length Nat.sub]. lia.
Qed.

(** X3: in an assembled record, changed_files holds one newline less
    than there are files (none for an empty list), provided that no
    filename holds a newline itself; its length is the sum of the
    filename lengths plus the newlines. *)
Theorem changed_files_newlines prData files diffFilePath :
  Forall (fun f => ~ In 10%N (filename f)) files ->
  let text := prd_changed_files (assemble prData files diffFilePath) in
  count_occ N.eq_dec text 10%N = (List.length files - 1)%nat
  /\ List.length text
     = (list_sum (map (fun f => List.length (filename f)) files)
        + (List.length files - 1))%nat.
Proof.
  intros Hfiles text. subst text. cbn [assemble prd_changed_files].
  change (lit "
") with [10%N].
  split.
  - rewrite count_newline_join, length_map; [reflexivity|].
    now apply Forall_map.
  - rewrite length_join, length_map, map_map.
    cbn [List.length]. lia.
Qed.

Lemma changed_files_newlines_witness :
  count_occ N.eq_dec
    (prd_changed_files
       (assemble (mkPullRequestInfo 42 (lit "Fix bug") None (lit "open")
                    (mkUserInfo (lit "alice"))
                    (mkBranchInfo (lit "fix") (lit "abc123")
                       (mkRepoInfo None None (mkOwnerInfo None)))
                    (mkBranchInfo (lit "main") (lit "def456")
                       (mkRepoInfo None None (mkOwnerInfo None))))
                 (map toPullRequestFile
                      [sample_file "a.ts"; sample_file "b.ts";
                       sample_file "c.ts"])
                 (lit "/tmp/augment/pr-42.diff")))
    10%N = 2%nat.
Proof.
  refine (proj1 (@changed_files_newlines _ _ _ _)).
  repeat constructor; vm_compute; intuition discriminate.
Defined.

(** ** The name of the diff file *)

Lemma lit_injective (a b : string) : lit a = lit b -> a = b.
Proof.
  unfold lit. intros H.
  rewrite <- (string_of_list_ascii_of_string a),
          <- (string_of_list_ascii_of_string b).
  f_equal.
  revert H. generalize (list_ascii_of_string a) (list_ascii_of_string b).
  induction l as [|x l IH]; intros [|y l'] H; try discriminate H.
  - reflexivity.
  - cbn in H. injection H as Hxy Hl. f_equal; [|now apply IH].
    rewrite <- (ascii_N_embedding x), <- (ascii_N_embedding y).
    now rewrite Hxy.
Qed.

Lemma showZ_injective (n m : Z) : showZ n = showZ m -> n = m.
Proof.
  unfold showZ. intros H. apply lit_injective in H.
  assert (Hparse : forall z, NilZero.int_of_string
                               (NilZero.string_of_int (Z.to_int z))
                             = Some (Z.to_int z)).
  { intros z. apply NilZero.isi; destruct z as [|p|p]; cbn;
      try discriminate; intros [= Hp];
      now apply DecimalPos.Unsigned.to_uint_nonnil in Hp. }
  pose proof (Hparse n) as Hn. rewrite H, Hparse in Hn.
  injection Hn as Hn.
  rewrite <- (DecimalZ.of_to n), <- (DecimalZ.of_to m). now rewrite Hn.
Qed.

Lemma startsWith_head (s p : jsstring) c d :
  c <> d -> startsWith (c :: s) (d :: p) = false.
Proof.
  intros Hcd. cbn. destruct (N.eqb_spec d c) as [->|_]; [|reflexivity].
  now contradiction Hcd.
Qed.

Lemma replace_unfold (s p r : jsstring) :
  replace s p r
  = if startsWith s p then r ++ skipn (List.length p) s
    else match s with
         | [] => []
         | c :: s' => c :: replace s' p r
         end.
Proof. now destruct s. Qed.

Lemma replace_placeholder (pre post r : jsstring) :
  ~ In 123%N pre ->
  replace (pre ++ PLACEHOLDER ++ post) PLACEHOLDER r = pre ++ r ++ post.
Proof.
  induction pre as [|c pre IH]; intros Hpre.
  - cbn [app]. rewrite replace_unfold, startsWith_refl_app. reflexivity.
  - cbn [app].
    assert (Hc : c <> 123%N) by (intros ->; apply Hpre; now left).
    assert (Hs : startsWith (c :: pre ++ PLACEHOLDER ++ post) PLACEHOLDER
                 = false)
      by exact (startsWith_head (pre ++ PLACEHOLDER ++ post)
                                (lit "pullNumber}") Hc).
    rewrite replace_unfold, Hs.
    f_equal. apply IH. intros Hin. apply Hpre. now right.
Qed.

Lemma replace_absent (s p r : jsstring) :
  includes s p = false -> replace s p r = s.
Proof.
  induction s as [|c s IH]; intros H; rewrite includes_unfold in H;
    apply orb_false_iff in H; destruct H as [Hs Hrest].
  - cbn [replace]. now rewrite Hs.
  - cbn [replace]. rewrite Hs. f_equal. now apply IH.
Qed.

(** X4: when DIFF_FILE_PATTERN holds the placeholder '{pullNumber}' with
    no brace before it, the diff file name is the pattern with the
    decimal pull number in place of that first placeholder, and two pull
    numbers never share a file name.  When the pattern holds no
    placeholder the name is the pattern itself, whatever the number. *)
Theorem diffFileName_per_pull_number K :
  (forall pre post,
     DIFF_FILE_PATTERN K = pre ++ PLACEHOLDER ++ post -> ~ In 123%N pre ->
     (forall n, diffFileName K n = pre ++ showZ n ++ post)
     /\ (forall n m, diffFileName K n = diffFileName K m -> n = m))
  /\ (includes (DIFF_FILE_PATTERN K) PLACEHOLDER = false ->
      forall n, diffFileName K n = DIFF_FILE_PATTERN K).
Proof.
  split.
  - intros pre post Hpat Hpre.
    assert (Hname : forall n, diffFileName K n = pre ++ showZ n ++ post).
    { intros n. unfold diffFileName. rewrite Hpat.
      now apply replace_placeholder. }
    split; [exact Hname|].
    intros n m H. rewrite !Hname in H.
    apply app_inv_head, app_inv_tail in H. now apply showZ_injective.
  - intros Habsent n. unfold diffFileName. now apply replace_absent.
Qed.

Lemma diffFileName_per_pull_number_witness :
  diffFileName (sample_constants 1000) 42 = lit "pr-42.diff"
  /\ diffFileName (sample_constants 1000) (-7) = lit "pr--7.diff".
Proof.
  destruct (proj1 (@diffFileName_per_pull_number (sample_constants 1000))
                  (lit "pr-") (lit ".diff") eq_refl) as [Hname _].
  - vm_compute. intuition discriminate.
  - rewrite !Hname. split; reflexivity.
Defined.

(** ** One request per fetch *)

(** X5: whatever the API answers, getPullRequest makes exactly one
    pulls.get request and getPullRequestDiff exactly one diff request;
    neither keeps running; each writes an error-level log entry exactly
    when it raises, and that single entry carries the raised error. *)
Theorem single_request_per_fetch K svc pn :
  (calls (trace (getPullRequest K svc pn))
   = [PullsGet (svc_owner svc) (svc_repo svc) pn]
   /\ ((exists info,
          result_of (getPullRequest K svc pn) = Return info
          /\ error_logs (trace (getPullRequest K svc pn)) = [])
       \/ (exists e,
             result_of (getPullRequest K svc pn) = Throw e
             /\ error_logs (trace (getPullRequest K svc pn))
                = [(fetchFailureLog K pn e, ErrorArg e)])))
  /\ (calls (trace (getPullRequestDiff K svc pn))
      = [PullsGetDiff (svc_owner svc) (svc_repo svc) pn]
      /\ ((exists d,
             result_of (getPullRequestDiff K svc pn) = Return d
             /\ error_logs (trace (getPullRequestDiff K svc pn)) = [])
          \/ (exists e,
                result_of (getPullRequestDiff K svc pn) = Throw e
                /\ error_logs (trace (getPullRequestDiff K svc pn))
                   = [(API_ERROR K ++ lit ": Failed to fetch PR diff",
                       ErrorArg e)]))).
Proof.
  split.
  - destruct (pulls_get (octokit svc) (svc_owner svc) (svc_repo svc) pn)
      as [data|e] eqn:Hd.
    + destruct (toPullRequestInfo data) as [info|e] eqn:Hi.
      * rewrite (getPullRequest_returns K svc pn Hd Hi).
        split; [reflexivity|]. left. now exists info.
      * rewrite (getPullRequest_rethrows_mapping K svc pn Hd Hi).
        split; [reflexivity|]. right. now exists e.
    + rewrite (getPullRequest_rethrows_request K svc pn Hd).
      split; [reflexivity|]. right. now exists e.
  - destruct (pulls_get_diff (octokit svc) (svc_owner svc) (svc_repo svc) pn)
      as [text|e] eqn:Hd.
    + rewrite (getPullRequestDiff_run K svc pn Hd).
      split; [reflexivity|]. left. eexists. split; reflexivity.
    + rewrite (getPullRequestDiff_rethrows K svc pn Hd).
      split; [reflexivity|]. right. now exists e.
Qed.

(** ** The authentication test *)

Lemma testAuthentication_without_user_api svc :
  rest_user (octokit svc) = None ->
  testAuthentication svc
  = ([Log LDebug
          (lit "Testing GitHub authentication and API connectivity") NoArg;
      Log LError (lit "Authentication test failed")
          (DigestArg
             (lit "GitHub user API is not available on this Octokit instance")
             None)],
     Throw (new_Error
              (lit "GitHub API connectivity test failed: "
               ++ lit "GitHub user API is not available on this Octokit instance"))).
Proof.
  intros Hu. unfold testAuthentication, log.
  rewrite bind_emit, Hu. reflexivity.
Qed.

Lemma testAuthentication_without_method svc api :
  rest_user (octokit svc) = Some api -> getAuthenticated api = None ->
  testAuthentication svc
  = ([Log LDebug
          (lit "Testing GitHub authentication and API connectivity") NoArg;
      Log LError (lit "Authentication test failed")
          (DigestArg
             (lit "getAuthenticated method is not available on user API")
             None)],
     Throw (new_Error
              (lit "GitHub API connectivity test failed: "
               ++ lit "getAuthenticated method is not available on user API"))).
Proof.
  intros Hu Hg. unfold testAuthentication, log.
  rewrite bind_emit, Hu, !bind_ret. cbn beta. rewrite Hg. reflexivity.
Qed.

Lemma testAuthentication_signed_in svc api u :
  rest_user (octokit svc) = Some api ->
  getAuthenticated api = Some (Ok u) ->
  testAuthentication svc
  = ([Log LDebug
          (lit "Testing GitHub authentication and API connectivity") NoArg;
      UserGetAuthenticated;
      Log LDebug (lit "Authentication successful") NoArg],
     Return tt).
Proof.
  intros Hu Hg. unfold testAuthentication, log.
  rewrite bind_emit, Hu, !bind_ret. cbn beta.
  rewrite Hg, !bind_ret. cbn beta.
  rewrite bind_request_ok. reflexivity.
Qed.

(** X6: testAuthentication either returns or raises a plain Error made by
    itself (name 'Error', no status), never the error it caught; it makes
    at most one request.  When the Octokit instance has no user API, or
    that API has no getAuthenticated method, no request is made and the
    Error raised reads 'GitHub API connectivity test failed: ' followed
    by the reason; when the request succeeds it returns and nothing is
    logged at error level. *)
Theorem testAuthentication_outcomes svc :
  let run := testAuthentication svc in
  (result_of run = Return tt
   \/ exists msg, result_of run = Throw (new_Error msg))
  /\ (calls (trace run) = [] \/ calls (trace run) = [UserGetAuthenticated])
  /\ (rest_user (octokit svc) = None ->
      calls (trace run) = []
      /\ result_of run
         = Throw (new_Error
                    (lit "GitHub API connectivity test failed: GitHub user API is not available on this Octokit instance")))
  /\ (forall api,
        rest_user (octokit svc) = Some api -> getAuthenticated api = None ->
        calls (trace run) = []
        /\ result_of run
           = Throw (new_Error
                      (lit "GitHub API connectivity test failed: getAuthenticated method is not available on user API")))
  /\ (forall api u,
        rest_user (octokit svc) = Some api ->
        getAuthenticated api = Some (Ok u) ->
        result_of run = Return tt
        /\ calls (trace run) = [UserGetAuthenticated]
        /\ error_logs (trace run) = []).
Proof.
  intros run. subst run.
  split; [|split; [|split; [|split]]].
  - destruct (rest_user (octokit svc)) as [api|] eqn:Hu.
    + destruct (getAuthenticated api) as [[u|e]|] eqn:Hg.
      * left. now rewrite (testAuthentication_signed_in svc Hu Hg).
      * right. rewrite (testAuthentication_replaces svc Hu Hg).
        eexists. reflexivity.
      * right. rewrite (testAuthentication_without_method svc Hu Hg).
        eexists. reflexivity.
    + right. rewrite (testAuthentication_without_user_api svc Hu).
      eexists. reflexivity.
  - destruct (rest_user (octokit svc)) as [api|] eqn:Hu.
    + destruct (getAuthenticated api) as [[u|e]|] eqn:Hg.
      * right. now rewrite (testAuthentication_signed_in svc Hu Hg).
      * right. now rewrite (testAuthentication_replaces svc Hu Hg).
      * left. now rewrite (testAuthentication_without_method svc Hu Hg).
    + left. now rewrite (testAuthentication_without_user_api svc Hu).
  - intros Hu. rewrite (testAuthentication_without_user_api svc Hu).
    split; reflexivity.
  - intros api Hu Hg. rewrite (testAuthentication_without_method svc Hu Hg).
    split; reflexivity.
  - intros api u Hu Hg. rewrite (testAuthentication_signed_in svc Hu Hg).
    repeat split; reflexivity.
Qed.

Lemma testAuthentication_outcomes_witness :
  result_of (testAuthentication (sample_service signed_in_client)) = Return tt
  /\ result_of (testAuthentication (sample_service short_client))
     = Throw (new_Error
                (lit "GitHub API connectivity test failed: GitHub user API is not available on this Octokit instance")).
Proof.
  pose proof (testAuthentication_outcomes (sample_service signed_in_client))
    as [_ [_ [_ [_ Hin]]]].
  pose proof (testAuthentication_outcomes (sample_service short_client))
    as [_ [_ [Hno _]]].
  split.
  - apply (Hin (mkUserApi (Some (Ok (mkUserData (Some (lit "alice"))))))
               (mkUserData (Some (lit "alice"))) eq_refl eq_refl).
  - apply (Hno eq_refl).
Defined.

(** ** Construction of the adapter *)

Lemma new_GitHubService_run env config cfg :
  result_of (buildOctokitConfig config) = Return cfg ->
  new_GitHubService env config
  = match newOctokit env cfg with
    | Ok client =>
        (trace (buildOctokitConfig config)
         ++ [Log LDebug (lit "GitHub token info") NoArg;
             Log LDebug (lit "Creating Octokit instance with config") NoArg;
             NewOctokit cfg;
             Log LDebug (lit "Octokit instance created successfully") NoArg;
             Log LDebug (lit "GitHubService initialized successfully") NoArg],
         Return (mkGitHubService client (config_owner config)
                                 (config_repo config)))
    | Err e =>
        let wrapped :=
          new_Error (lit "Failed to initialize GitHub API client: "
                     ++ error_toString e) in
        (trace (buildOctokitConfig config)
         ++ [Log LDebug (lit "GitHub token info") NoArg;
             Log LDebug (lit "Creating Octokit instance with config") NoArg;
             NewOctokit cfg;
             Log LError (lit "Failed to create Octokit instance")
                 (ErrorArg e);
             Log LError (lit "Failed to initialize GitHubService")
                 (ErrorArg wrapped)],
         Throw wrapped)
    end.
Proof.
  intros Hcfg. unfold new_GitHubService, log, request, emit.
  destruct (buildOctokitConfig config) as [t r].
  cbn [result_of snd] in Hcfg. subst r. cbn [trace fst].
  cbn [bind try_catch lift ret throw app].
  destruct (newOctokit env cfg) as [client|e];
    cbn [bind try_catch lift ret throw app];
    rewrite <- ?app_assoc; reflexivity.
Qed.

Lemma buildOctokitConfig_quiet config :
  calls (trace (buildOctokitConfig config)) = []
  /\ error_logs (trace (buildOctokitConfig config)) = []
  /\ exists cfg,
       result_of (buildOctokitConfig config) = Return cfg
       /\ cfg_auth cfg = token config.
Proof.
  unfold buildOctokitConfig.
  destruct (baseUrl config) as [[|c url]|]; cbn [truthy];
    try (repeat split; eexists; split; reflexivity).
  destruct (negb (endsWith (c :: url) API_V3));
    repeat split; eexists; split; reflexivity.
Qed.

(** X7: the constructor asks for exactly one Octokit instance, with the
    token as its auth value.  When Octokit is created, the service holds
    that instance with the owner and the repository name of the
    configuration, and nothing is logged at error level.  When Octokit
    refuses, the constructor raises a new Error, 'Failed to initialize
    GitHub API client: ' followed by the text of what Octokit raised, and
    logs twice at error level: first the original error, then the new
    one. *)
Theorem constructor_outcomes env config :
  exists cfg,
    result_of (buildOctokitConfig config) = Return cfg
    /\ cfg_auth cfg = token config
    /\ calls (trace (new_GitHubService env config)) = [NewOctokit cfg]
    /\ (forall client,
          newOctokit env cfg = Ok client ->
          result_of (new_GitHubService env config)
          = Return (mkGitHubService client (config_owner config)
                                    (config_repo config))
          /\ error_logs (trace (new_GitHubService env config)) = [])
    /\ (forall e,
          newOctokit env cfg = Err e ->
          let wrapped :=
            new_Error (lit "Failed to initialize GitHub API client: "
                       ++ error_toString e) in
          result_of (new_GitHubService env config) = Throw wrapped
          /\ error_logs (trace (new_GitHubService env config))
             = [(lit "Failed to create Octokit instance", ErrorArg e);
                (lit "Failed to initialize GitHubService", ErrorArg wrapped)]).
Proof.
  destruct (buildOctokitConfig_quiet config) as [Hc [He [cfg [Hcfg Hauth]]]].
  exists cfg. split; [exact Hcfg|]. split; [exact Hauth|].
  rewrite (new_GitHubService_run env config Hcfg).
  split; [|split].
  - destruct (newOctokit env cfg); cbn [trace fst];
      rewrite calls_app, Hc; reflexivity.
  - intros client ->. cbn [trace result_of fst snd].
    rewrite error_logs_app, He. split; reflexivity.
  - intros e ->. cbn [trace result_of fst snd].
    rewrite error_logs_app, He. split; reflexivity.
Qed.

Lemma constructor_outcomes_witness :
  result_of (new_GitHubService (sample_env (Err unauthorized))
               (enterprise_config "https://ghe.example.com"))
  = Throw (new_Error
             (lit "Failed to initialize GitHub API client: HttpError: Bad credentials"))
  /\ result_of (new_GitHubService (sample_env (Ok short_client))
                  (enterprise_config "https://ghe.example.com"))
     = Return (mkGitHubService short_client (lit "o") (lit "r")).
Proof.
  destruct (constructor_outcomes (sample_env (Err unauthorized))
              (enterprise_config "https://ghe.example.com"))
    as [cfg1 [_ [_ [_ [_ Hfail]]]]].
  destruct (constructor_outcomes (sample_env (Ok short_client))
              (enterprise_config "https://ghe.example.com"))
    as [cfg2 [_ [_ [_ [Hok _]]]]].
  split.
  - apply (Hfail unauthorized eq_refl).
  - apply (Hok short_client eq_refl).
Defined.

(** ** What create asks of its collaborators *)

Lemma create_run_unparsed env inputs rn tk e :
  repoName inputs = Some rn -> githubToken inputs = Some tk ->
  rn <> [] -> tk <> [] ->
  parseRepoName env rn = Err e ->
  create env inputs
  = ([ParseRepoName rn;
      Log LDebug
          (lit "Failed to create pre-configured GitHubService, will create lazily")
          NoArg;
      Log LDebug
          (lit "PRExtractor created without GitHubService (will be created lazily)")
          NoArg],
     Return (mkPRExtractor None)).
Proof.
  intros Hrn Htk Hr Ht Hparse. unfold create. rewrite Hrn, Htk.
  destruct rn as [|c rn]; [contradiction|].
  destruct tk as [|d tk]; [contradiction|].
  cbn [truthy andb]. unfold log.
  rewrite Hparse, bind_request_err. reflexivity.
Qed.

Lemma create_run_parsed env inputs rn tk parsed :
  repoName inputs = Some rn -> githubToken inputs = Some tk ->
  rn <> [] -> tk <> [] ->
  parseRepoName env rn = Ok parsed ->
  let build := new_GitHubService env
                 (mkServiceConfig tk (parsed_owner parsed)
                    (parsed_repo parsed) (githubApiUrl inputs)) in
  calls (trace (create env inputs)) = ParseRepoName rn :: calls (trace build)
  /\ error_logs (trace (create env inputs)) = error_logs (trace build)
  /\ (forall svc, result_of build = Return svc ->
        result_of (create env inputs) = Return (mkPRExtractor (Some svc))).
Proof.
  intros Hrn Htk Hr Ht Hparse build. unfold create. rewrite Hrn, Htk.
  destruct rn as [|c rn]; [contradiction|].
  destruct tk as [|d tk]; [contradiction|].
  cbn [truthy andb]. unfold log.
  rewrite Hparse, bind_request_ok, bind_emit. fold build.
  pose proof (new_GitHubService_not_running env
                (mkServiceConfig (d :: tk) (parsed_owner parsed)
                   (parsed_repo parsed) (githubApiUrl inputs))) as Hrun.
  fold build in Hrun.
  destruct build as [t [svc|e|]]; [| |now contradiction Hrun].
  - cbn [bind try_catch ret emit trace result_of fst snd app].
    unfold calls, error_logs. cbn [filter flat_map app].
    rewrite ?filter_app, ?flat_map_app. cbn [filter flat_map app].
    rewrite ?app_nil_r.
    repeat split. now intros svc' [= <-].
  - cbn [bind try_catch ret emit trace result_of fst snd app].
    unfold calls, error_logs. cbn [filter flat_map app].
    rewrite ?filter_app, ?flat_map_app. cbn [filter flat_map app].
    rewrite ?app_nil_r.
    repeat split. discriminate.
Qed.

(** X8: create calls its collaborators only as far as it gets.  With
    repoName or githubToken missing or empty it calls nothing.  With both
    there it parses the repository name first; when parsing fails it
    never constructs an Octokit instance and logs nothing at error level
    (the failure is visible at debug level only).  When parsing succeeds
    it constructs exactly one Octokit instance, and the adapter it
    returns on success holds the parsed owner and repository name. *)
Theorem create_calls env inputs :
  (truthy_opt (repoName inputs) = false
   \/ truthy_opt (githubToken inputs) = false ->
   calls (trace (create env inputs)) = []
   /\ error_logs (trace (create env inputs)) = [])
  /\ (forall rn tk e,
        repoName inputs = Some rn -> githubToken inputs = Some tk ->
        rn <> [] -> tk <> [] ->
        parseRepoName env rn = Err e ->
        calls (trace (create env inputs)) = [ParseRepoName rn]
        /\ error_logs (trace (create env inputs)) = [])
  /\ (forall rn tk parsed,
        repoName inputs = Some rn -> githubToken inputs = Some tk ->
        rn <> [] -> tk <> [] ->
        parseRepoName env rn = Ok parsed ->
        exists cfg,
          calls (trace (create env inputs))
          = [ParseRepoName rn; NewOctokit cfg]
          /\ cfg_auth cfg = tk
          /\ (forall client,
                newOctokit env cfg = Ok client ->
                result_of (create env inputs)
                = Return (mkPRExtractor
                            (Some (mkGitHubService client
                                     (parsed_owner parsed)
                                     (parsed_repo parsed)))))).
Proof.
  split; [|split].
  - unfold create.
    destruct (repoName inputs) as [[|c rn]|],
             (githubToken inputs) as [[|d tk]|];
      cbn [truthy_opt truthy andb]; intros [H|H];
      try discriminate H; split; reflexivity.
  - intros rn tk e Hrn Htk Hr Ht Hparse.
    rewrite (create_run_unparsed env inputs Hrn Htk Hr Ht Hparse).
    split; reflexivity.
  - intros rn tk parsed Hrn Htk Hr Ht Hparse.
    destruct (create_run_parsed env inputs Hrn Htk Hr Ht Hparse)
      as [Hcalls [_ Hsvc]].
    set (config := mkServiceConfig tk (parsed_owner parsed)
                     (parsed_repo parsed) (githubApiUrl inputs)) in *.
    destruct (buildOctokitConfig_quiet config) as [Hc [_ [cfg [Hcfg Hauth]]]].
    exists cfg. rewrite Hcalls.
    rewrite (new_GitHubService_run env config Hcfg) in *.
    split; [|split; [exact Hauth|]].
    + destruct (newOctokit env cfg); cbn [trace fst];
        rewrite calls_app, Hc; reflexivity.
    + intros client Hclient. apply Hsvc. now rewrite Hclient.
Qed.

Lemma create_calls_witness :
  calls (trace (create (unparsed_env not_found) sample_inputs))
  = [ParseRepoName (lit "o/r")]
  /\ error_logs (trace (create (unparsed_env not_found) sample_inputs)) = [].
Proof.
  apply (proj1 (proj2 (create_calls (unparsed_env not_found) sample_inputs))
               (lit "o/r") (lit "ghp_0123") not_found);
    try reflexivity; discriminate.
Defined.

(** ** Writing the diff file *)

(** Every way writeDiffFile can go once the diff has been fetched. *)
Lemma writeDiffFile_run K env pn svc text :
  pulls_get_diff (octokit svc) (svc_owner svc) (svc_repo svc) pn = Ok text ->
  let d := toPullRequestDiff (MAX_DIFF_SIZE K) text in
  let fetched :=
    [Log LDebug (lit "Fetching diff for PR " ++ showPull pn) NoArg;
     PullsGetDiff (svc_owner svc) (svc_repo svc) pn]
    ++ (if truncated d
        then [Log LWarning (lit "PR diff was truncated due to size") NoArg]
        else []) in
  let failed e := Log LError (lit "Failed to write diff file") (ErrorArg e) in
  writeDiffFile K env pn svc
  = match pn with
    | None =>
        (fetched ++ [failed (TypeError_reading "toString")],
         Throw (TypeError_reading "toString"))
    | Some n =>
        let path := path_join env (TEMP_DIR K) (diffFileName K n) in
        match ensureDirectoryExists env (TEMP_DIR K) with
        | Err e =>
            (fetched ++ [EnsureDirectoryExists (TEMP_DIR K); failed e],
             Throw e)
        | Ok _ =>
            match writeFile env path (content d) with
            | Err e =>
                (fetched ++ [EnsureDirectoryExists (TEMP_DIR K);
                             FsWriteFile path (content d); failed e],
                 Throw e)
            | Ok _ =>
                (fetched ++ [EnsureDirectoryExists (TEMP_DIR K);
                             FsWriteFile path (content d);
                             Log LDebug (lit "Diff file written") NoArg],
                 Return path)
            end
        end
    end.
Proof.
  intros Hd d fetched failed. unfold writeDiffFile.
  rewrite (getPullRequestDiff_run K svc pn Hd). fold d.
  subst fetched failed. unfold diffFileName, log, request, emit.
  destruct pn as [n|]; cbn [bind lift ret app].
  - destruct (ensureDirectoryExists env (TEMP_DIR K)) as [[]|e];
      [destruct (writeFile env _ (content d)) as [[]|e]|];
      destruct (truncated d); reflexivity.
  - destruct (truncated d); reflexivity.
Qed.

(** X9: when the diff is fetched, the pull number is defined and both
    storage calls succeed, writeDiffFile makes exactly three calls in
    this order: the diff request, ensureDirectoryExists on TEMP_DIR, and
    writeFile with the content of the fetched diff (the truncated content
    when the diff was truncated).  The path it writes to, TEMP_DIR joined
    with the diff file name, is the path it returns; a warning is logged
    exactly when size exceeds MAX_DIFF_SIZE; nothing is logged at error
    level. *)
Theorem writeDiffFile_writes_then_returns K env svc n text :
  pulls_get_diff (octokit svc) (svc_owner svc) (svc_repo svc) (Some n)
  = Ok text ->
  ensureDirectoryExists env (TEMP_DIR K) = Ok tt ->
  let d := toPullRequestDiff (MAX_DIFF_SIZE K) text in
  let path := path_join env (TEMP_DIR K) (diffFileName K n) in
  writeFile env path (content d) = Ok tt ->
  let run := writeDiffFile K env (Some n) svc in
  result_of run = Return path
  /\ calls (trace run)
     = [PullsGetDiff (svc_owner svc) (svc_repo svc) (Some n);
        EnsureDirectoryExists (TEMP_DIR K);
        FsWriteFile path (content d)]
  /\ error_logs (trace run) = []
  /\ (In (Log LWarning (lit "PR diff was truncated due to size") NoArg)
         (trace run)
      <-> MAX_DIFF_SIZE K < byteLength text).
Proof.
  intros Hd Hdir d path Hw run. subst run.
  rewrite (@writeDiffFile_run K env _ _ _ Hd). cbv zeta.
  fold d. fold path.
  rewrite Hdir, Hw. cbn [result_of trace fst snd].
  assert (Ht : truncated d = (MAX_DIFF_SIZE K <? byteLength text))
    by reflexivity.
  destruct (truncated d); symmetry in Ht;
    [apply Z.ltb_lt in Ht | apply Z.ltb_ge in Ht];
    (split; [reflexivity|]); (split; [reflexivity|]);
    (split; [reflexivity|]); cbn [app In]; split; intros H.
  - exact Ht.
  - tauto.
  - repeat (destruct H as [H|H]; [discriminate H|]). contradiction.
  - lia.
Qed.

Lemma writeDiffFile_writes_then_returns_witness :
  result_of (writeDiffFile (sample_constants 4)
               (sample_env (Ok accented_client)) (Some 42)
               (sample_service accented_client))
  = Return (lit "/tmp/augment/pr-42.diff")
  /\ calls (trace (writeDiffFile (sample_constants 4)
                     (sample_env (Ok accented_client)) (Some 42)
                     (sample_service accented_client)))
     = [PullsGetDiff (lit "o") (lit "r") (Some 42);
        EnsureDirectoryExists (lit "/tmp/augment");
        FsWriteFile (lit "/tmp/augment/pr-42.diff") accented_diff].
Proof.
  destruct (@writeDiffFile_writes_then_returns (sample_constants 4)
              (sample_env (Ok accented_client))
              (sample_service accented_client) 42 accented_diff
              eq_refl eq_refl eq_refl) as [Hr [Hc _]].
  split; [exact Hr | exact Hc].
Defined.

Lemma writeDiffFile_write_inv K env pn svc path written :
  In (FsWriteFile path written) (trace (writeDiffFile K env pn svc)) ->
  exists text n,
    pulls_get_diff (octokit svc) (svc_owner svc) (svc_repo svc) pn = Ok text
    /\ pn = Some n
    /\ ensureDirectoryExists env (TEMP_DIR K) = Ok tt
    /\ written = content (toPullRequestDiff (MAX_DIFF_SIZE K) text)
    /\ path = path_join env (TEMP_DIR K) (diffFileName K n).
Proof.
  intros Hin.
  destruct (pulls_get_diff (octokit svc) (svc_owner svc) (svc_repo svc) pn)
    as [text|e] eqn:Hd.
  - rewrite (@writeDiffFile_run K env _ _ _ Hd) in Hin. cbv zeta in Hin.
    set (d := toPullRequestDiff (MAX_DIFF_SIZE K) text) in *.
    destruct pn as [n|].
    + destruct (ensureDirectoryExists env (TEMP_DIR K)) as [[]|e] eqn:Hdir;
        [destruct (writeFile env _ (content d)) as [[]|e]|];
        destruct (truncated d); cbn [trace fst app In] in Hin;
        repeat (destruct Hin as [Hin|Hin]; [try discriminate Hin|]);
        try contradiction;
        injection Hin as <- <-; exists text, n; repeat split; reflexivity.
    + destruct (truncated d); cbn [trace fst app In] in Hin;
        repeat (destruct Hin as [Hin|Hin]; [discriminate Hin|]);
        contradiction.
  - rewrite (writeDiffFile_rethrows_fetch K env svc pn Hd) in Hin.
    cbn [trace fst In] in Hin.
    repeat (destruct Hin as [Hin|Hin]; [discriminate Hin|]).
    contradiction.
Qed.

(** X10: writeDiffFile writes a file only in one situation: the diff was
    fetched, the pull number is defined and ensureDirectoryExists
    succeeded; what it writes is then the content of the fetched diff,
    to TEMP_DIR joined with the diff file name.  In particular, with an
    undefined pull number the diff is fetched but no storage call is
    made: converting the number raises a TypeError first. *)
Theorem writeDiffFile_writes_only_fetched_content K env pn svc :
  (forall path written,
     In (FsWriteFile path written) (trace (writeDiffFile K env pn svc)) ->
     exists text n,
       pulls_get_diff (octokit svc) (svc_owner svc) (svc_repo svc) pn
       = Ok text
       /\ pn = Some n
       /\ ensureDirectoryExists env (TEMP_DIR K) = Ok tt
       /\ written = content (toPullRequestDiff (MAX_DIFF_SIZE K) text)
       /\ path = path_join env (TEMP_DIR K) (diffFileName K n))
  /\ (forall text,
        pulls_get_diff (octokit svc) (svc_owner svc) (svc_repo svc) pn
        = Ok text ->
        pn = None ->
        result_of (writeDiffFile K env pn svc)
        = Throw (TypeError_reading "toString")
        /\ calls (trace (writeDiffFile K env pn svc))
           = [PullsGetDiff (svc_owner svc) (svc_repo svc) pn]).
Proof.
  split.
  - intros path written. apply writeDiffFile_write_inv.
  - intros text Hd ->. rewrite (@writeDiffFile_run K env _ _ _ Hd).
    cbv zeta.
    destruct (truncated (toPullRequestDiff (MAX_DIFF_SIZE K) text));
      split; reflexivity.
Qed.

Lemma writeDiffFile_writes_only_fetched_content_witness :
  exists text n,
    pulls_get_diff accented_client (lit "o") (lit "r") (Some 42) = Ok text
    /\ Some 42 = Some n
    /\ lit "/tmp/augment/pr-42.diff"
       = lit "/tmp/augment" ++ lit "/"
         ++ diffFileName (sample_constants 4) n.
Proof.
  destruct (proj1 (@writeDiffFile_writes_only_fetched_content
                     (sample_constants 4) (sample_env (Ok accented_client))
                     (Some 42) (sample_service accented_client))
                  (lit "/tmp/augment/pr-42.diff") accented_diff)
    as [text [n [Hd [Hn [_ [_ Hpath]]]]]].
  - vm_compute. tauto.
  - exists text, n. split; [exact Hd|]. split; [exact Hn | exact Hpath].
Defined.

(** ** Paging against a listing *)

(** The whole run of getPullRequestFiles up to the first short page. *)
Lemma getPullRequestFiles_run K svc pn (pages : nat -> list FileData)
      (n fuel : nat) :
  (1 <= n <= fuel)%nat ->
  (forall p, (1 <= p <= n)%nat ->
     pulls_listFiles (octokit svc) (svc_owner svc) (svc_repo svc) pn
                     PER_PAGE p = Ok (pages p)) ->
  (forall p, (1 <= p < n)%nat -> (PER_PAGE <= List.length (pages p))%nat) ->
  (List.length (pages n) < PER_PAGE)%nat ->
  result_of (getPullRequestFiles K fuel svc pn)
  = Return (flat_map (pageFiles pages) (seq 1 n))
  /\ calls (trace (getPullRequestFiles K fuel svc pn))
     = map (PullsListFiles (svc_owner svc) (svc_repo svc) pn PER_PAGE)
           (seq 1 n)
  /\ error_logs (trace (getPullRequestFiles K fuel svc pn)) = [].
Proof.
  intros Hn Hserved Hfull Hshort.
  destruct (@fetchPages_until_short svc pn pages n Hserved Hfull
              (n - 1)%nat 1%nat [] fuel)
    as [Hr [_ [Hc He]]]; try lia.
  replace (S (n - 1)) with n in Hr, Hc by lia.
  cbn [app] in Hr.
  assert (Hrun : getPullRequestFiles K fuel svc pn
                 = (Log LDebug (lit "Fetching files for PR " ++ showPull pn)
                        NoArg
                    :: trace (fetchPages fuel svc pn 1 []) ++
                       [Log LInfo (lit "Successfully fetched all PR files")
                            NoArg],
                    Return (flat_map (pageFiles pages) (seq 1 n)))).
  { unfold getPullRequestFiles, log.
    rewrite bind_emit, (bind_return _ _ Hr), bind_emit. reflexivity. }
  rewrite Hrun. cbn [result_of trace fst snd].
  split; [reflexivity|].
  unfold calls, error_logs in *. cbn [filter flat_map app].
  rewrite filter_app, flat_map_app, Hc, He.
  cbn [filter flat_map app]. rewrite app_nil_r. split; reflexivity.
Qed.

Lemma firstn_plus {A} (a b : nat) (l : list A) :
  firstn (a + b) l = firstn a l ++ firstn b (skipn a l).
Proof.
  revert l. induction a as [|a IH]; intros l; [reflexivity|].
  destruct l as [|x l]; [cbn; now rewrite firstn_nil|].
  cbn [Nat.add firstn skipn app]. now rewrite IH.
Qed.

(** The first [k] served pages, laid end to end, are the first
    per_page * k entries of the listing. *)
Lemma servedPages_concat per_page (all : list FileData) (k : nat) :
  flat_map (servedPage per_page all) (seq 1 k) = firstn (per_page * k) all.
Proof.
  induction k as [|k IH].
  - now rewrite Nat.mul_0_r.
  - rewrite seq_S, flat_map_app, IH. cbn [flat_map Nat.add].
    rewrite app_nil_r. unfold servedPage.
    replace (S k - 1)%nat with k by lia.
    replace (per_page * S k)%nat with (per_page * k + per_page)%nat by lia.
    symmetry. apply firstn_plus.
Qed.

Lemma servedPage_length per_page (all : list FileData) (p : nat) :
  List.length (servedPage per_page all p)
  = Nat.min per_page (List.length all - per_page * (p - 1)).
Proof. unfold servedPage. now rewrite length_firstn, length_skipn. Qed.

Lemma flat_map_pageFiles pages (ps : list nat) :
  flat_map (pageFiles pages) ps = map toPullRequestFile (flat_map pages ps).
Proof.
  induction ps as [|p ps IH]; [reflexivity|].
  cbn [flat_map]. now rewrite map_app, IH.
Qed.

(** X11: against an API that serves a listing in pages of 100,
    getPullRequestFiles returns every entry of the listing, once each
    and in the order of the listing, whatever its length; it makes
    length / 100 + 1 requests, so a listing whose length is a multiple of
    100 (the empty one included) costs one request for a final empty
    page. *)
Theorem getPullRequestFiles_whole_listing K svc pn (all : list FileData)
        (fuel : nat) :
  (forall p,
     pulls_listFiles (octokit svc) (svc_owner svc) (svc_repo svc) pn
                     PER_PAGE p = Ok (servedPage PER_PAGE all p)) ->
  (List.length all / PER_PAGE + 1 <= fuel)%nat ->
  result_of (getPullRequestFiles K fuel svc pn)
  = Return (map toPullRequestFile all)
  /\ calls (trace (getPullRequestFiles K fuel svc pn))
     = map (PullsListFiles (svc_owner svc) (svc_repo svc) pn PER_PAGE)
           (seq 1 (List.length all / PER_PAGE + 1))
  /\ error_logs (trace (getPullRequestFiles K fuel svc pn)) = [].
Proof.
  intros Hserved Hfuel.
  set (q := (List.length all / PER_PAGE)%nat) in *.
  assert (Hdiv : (List.length all = PER_PAGE * q + List.length all mod PER_PAGE)%nat)
    by (apply Nat.div_mod_eq).
  assert (Hmod : (List.length all mod PER_PAGE < PER_PAGE)%nat)
    by (apply Nat.mod_upper_bound; discriminate).
  set (r := (List.length all mod PER_PAGE)%nat) in *.
  assert (Hper : PER_PAGE = 100%nat) by reflexivity.
  destruct (@getPullRequestFiles_run K svc pn (servedPage PER_PAGE all)
              (q + 1) fuel) as [Hr [Hc He]].
  - lia.
  - intros p _. apply Hserved.
  - intros p Hp. rewrite servedPage_length. nia.
  - rewrite servedPage_length. nia.
  - split; [|split; [exact Hc | exact He]].
    rewrite Hr, flat_map_pageFiles, servedPages_concat.
    rewrite firstn_all2 by nia. reflexivity.
Qed.

Lemma getPullRequestFiles_whole_listing_witness :
  result_of (getPullRequestFiles (sample_constants 1000) 4
               (sample_service
                  (listing_client (repeat (sample_file "a.ts") 200)))
               (Some 42))
  = Return (map toPullRequestFile (repeat (sample_file "a.ts") 200))
  /\ calls (trace (getPullRequestFiles (sample_constants 1000) 4
                     (sample_service
                        (listing_client (repeat (sample_file "a.ts") 200)))
                     (Some 42)))
     = map (PullsListFiles (lit "o") (lit "r") (Some 42) PER_PAGE)
           [1; 2; 3]%nat.
Proof.
  destruct (@getPullRequestFiles_whole_listing (sample_constants 1000)
              (sample_service
                 (listing_client (repeat (sample_file "a.ts") 200)))
              (Some 42) (repeat (sample_file "a.ts") 200) 4)
    as [Hr [Hc _]].
  - intros p. reflexivity.
  - vm_compute. lia.
  - split; [exact Hr | exact Hc].
Defined.

Lemma fetchPages_running_requests svc pn (pages : nat -> list FileData) :
  (forall p, pulls_listFiles (octokit svc) (svc_owner svc) (svc_repo svc) pn
                             PER_PAGE p = Ok (pages p)) ->
  (forall p, (PER_PAGE <= List.length (pages p))%nat) ->
  forall fuel page acc,
    requested_pages (trace (fetchPages fuel svc pn page acc))
    = seq page fuel
    /\ error_logs (trace (fetchPages fuel svc pn page acc)) = [].
Proof.
  intros Hserved Hfull. induction fuel as [|fuel IH]; intros page acc.
  - split; reflexivity.
  - destruct (@fetchPages_step svc pn fuel page acc (pages page)
                (Hserved page)) as [_ [Hq [_ He]]].
    rewrite Hq, He.
    assert (Hge : (List.length (pages page) <? PER_PAGE)%nat = false)
      by apply Nat.ltb_ge, Hfull.
    rewrite Hge.
    destruct (IH (S page) (acc ++ map toPullRequestFile (pages page)))
      as [Hq' He'].
    rewrite Hq', He'. split; reflexivity.
Qed.

(** X12: no bound on the number of pages.  Against an API whose every
    page holds at least 100 entries, getPullRequestFiles never returns
    and never raises: whatever the number of iterations allowed, it is
    still running after them, having asked for the pages 1, 2, ... in
    turn, one per iteration, and logged nothing at error level. *)
Theorem getPullRequestFiles_unbounded K svc pn
        (pages : nat -> list FileData) :
  (forall p, pulls_listFiles (octokit svc) (svc_owner svc) (svc_repo svc) pn
                             PER_PAGE p = Ok (pages p)) ->
  (forall p, (PER_PAGE <= List.length (pages p))%nat) ->
  forall fuel,
    result_of (getPullRequestFiles K fuel svc pn) = Running
    /\ requested_pages (trace (getPullRequestFiles K fuel svc pn))
       = seq 1 fuel
    /\ error_logs (trace (getPullRequestFiles K fuel svc pn)) = [].
Proof.
  intros Hserved Hfull fuel.
  pose proof (fetchPages_keeps_running svc pn pages Hserved Hfull fuel 1%nat [])
    as Hr.
  destruct (fetchPages_running_requests svc pn pages Hserved Hfull fuel
              1%nat []) as [Hq He].
  unfold getPullRequestFiles, log. rewrite bind_emit.
  destruct (fetchPages fuel svc pn 1 []) as [t r].
  cbn [result_of snd trace fst] in *. subst r.
  cbn [bind try_catch result_of trace fst snd].
  unfold error_logs, requested_pages in *. cbn [flat_map app].
  rewrite Hq, He. repeat split; reflexivity.
Qed.

Lemma getPullRequestFiles_unbounded_witness :
  result_of (getPullRequestFiles (sample_constants 1000) 7
               (sample_service endless_client) (Some 42)) = Running
  /\ requested_pages
       (trace (getPullRequestFiles (sample_constants 1000) 7
                 (sample_service endless_client) (Some 42)))
     = [1; 2; 3; 4; 5; 6; 7]%nat.
Proof.
  destruct (@getPullRequestFiles_unbounded (sample_constants 1000)
              (sample_service endless_client) (Some 42)
              (fun _ => repeat (sample_file "a.ts") 100)) with (fuel := 7%nat)
    as [Hr [Hq _]].
  - intros p. reflexivity.
  - intros p. vm_compute. lia.
  - split; [exact Hr | exact Hq].
Defined.

(** ** The extraction as a whole *)

Lemma performExtraction_run K env fuel svc inputs prData files path :
  result_of (getPullRequest K svc (pullNumber inputs)) = Return prData ->
  result_of (getPullRequestFiles K fuel svc (pullNumber inputs))
  = Return files ->
  result_of (writeDiffFile K env (pullNumber inputs) svc) = Return path ->
  performExtraction K env fuel (mkPRExtractor (Some svc)) inputs
  = (trace (getPullRequest K svc (pullNumber inputs))
     ++ trace (getPullRequestFiles K fuel svc (pullNumber inputs))
     ++ trace (writeDiffFile K env (pullNumber inputs) svc)
     ++ [Log LInfo (lit "PR data extraction completed") NoArg],
     Return (assemble prData files path)).
Proof.
  intros Hp Hf Hw. unfold performExtraction, log. cbn [githubService].
  rewrite (bind_return _ _ Hp). cbn [trace result_of fst snd].
  rewrite (bind_return _ _ Hf). cbn [trace result_of fst snd].
  rewrite (bind_return _ _ Hw). cbn [trace result_of fst snd].
  rewrite bind_emit. reflexivity.
Qed.

(** X13: the whole extraction.  With a defined pull number, a metadata
    response that maps to a record, a listing whose first short page is
    page k, a fetched diff and a storage that accepts both calls,
    performExtraction returns the record assembled from exactly these
    parts.  Its calls are, in this order: the metadata request, the
    listing requests for pages 1 to k, the diff request, the directory
    creation and the file write; the path written to is the diff_file of
    the record, and nothing is logged at error level. *)
Theorem performExtraction_end_to_end K env svc inputs n data prData
        (pages : nat -> list FileData) (k fuel : nat) text :
  pullNumber inputs = Some n ->
  pulls_get (octokit svc) (svc_owner svc) (svc_repo svc) (Some n) = Ok data ->
  toPullRequestInfo data = Ok prData ->
  (1 <= k <= fuel)%nat ->
  (forall p, (1 <= p <= k)%nat ->
     pulls_listFiles (octokit svc) (svc_owner svc) (svc_repo svc) (Some n)
                     PER_PAGE p = Ok (pages p)) ->
  (forall p, (1 <= p < k)%nat -> (PER_PAGE <= List.length (pages p))%nat) ->
  (List.length (pages k) < PER_PAGE)%nat ->
  pulls_get_diff (octokit svc) (svc_owner svc) (svc_repo svc) (Some n)
  = Ok text ->
  ensureDirectoryExists env (TEMP_DIR K) = Ok tt ->
  let written := content (toPullRequestDiff (MAX_DIFF_SIZE K) text) in
  let path := path_join env (TEMP_DIR K) (diffFileName K n) in
  writeFile env path written = Ok tt ->
  let run := performExtraction K env fuel (mkPRExtractor (Some svc)) inputs in
  let files := flat_map (pageFiles pages) (seq 1 k) in
  result_of run = Return (assemble prData files path)
  /\ prd_diff_file (assemble prData files path) = path
  /\ calls (trace run)
     = PullsGet (svc_owner svc) (svc_repo svc) (Some n)
       :: map (PullsListFiles (svc_owner svc) (svc_repo svc) (Some n)
                              PER_PAGE) (seq 1 k)
       ++ [PullsGetDiff (svc_owner svc) (svc_repo svc) (Some n);
           EnsureDirectoryExists (TEMP_DIR K);
           FsWriteFile path written]
  /\ error_logs (trace run) = [].
Proof.
  intros Hn Hd Hi Hk Hserved Hfull Hshort Hdiff Hdir written path Hw run files.
  pose proof (getPullRequest_returns K svc (Some n) Hd Hi) as Hp.
  destruct (@getPullRequestFiles_run K svc (Some n) pages k fuel
              Hk Hserved Hfull Hshort) as [Hfr [Hfc Hfe]].
  pose proof (@writeDiffFile_run K env _ _ _ Hdiff) as Hrun.
  cbv beta iota zeta in Hrun. fold written in Hrun. fold path in Hrun.
  rewrite Hdir, Hw in Hrun.
  assert (Hwr : result_of (writeDiffFile K env (Some n) svc) = Return path)
    by now rewrite Hrun.
  subst run. rewrite <- Hn in *.
  rewrite (@performExtraction_run K env fuel svc inputs prData files path);
    [|now rewrite Hp | exact Hfr | exact Hwr].
  cbn [result_of trace fst snd].
  split; [reflexivity|]. split; [reflexivity|].
  rewrite !calls_app, !error_logs_app, Hfc, Hfe, Hp, Hrun.
  cbn [trace fst].
  destruct (truncated (toPullRequestDiff (MAX_DIFF_SIZE K) text));
    split; reflexivity.
Qed.

Lemma performExtraction_end_to_end_witness :
  exists record,
    result_of (performExtraction (sample_constants 1000)
                 (sample_env (Ok short_client)) 5
                 (mkPRExtractor (Some (sample_service short_client)))
                 sample_inputs) = Return record
    /\ prd_number record = 42
    /\ prd_author record = lit "alice"
    /\ prr_owner (prb_repo (prd_head record)) = Some (lit "o")
    /\ prd_diff_file record = lit "/tmp/augment/pr-42.diff".
Proof.
  destruct (toPullRequestInfo sample_pull) as [prData|e] eqn:Hi;
    [|discriminate Hi].
  destruct (@performExtraction_end_to_end (sample_constants 1000)
              (sample_env (Ok short_client)) (sample_service short_client)
              sample_inputs 42 sample_pull prData
              (fun _ => [sample_file "a.ts"; sample_file "b.ts"]) 1 5
              (lit "diff --git a/a.ts b/a.ts")
              eq_refl eq_refl Hi) as [Hr _];
    try reflexivity; try (cbn; lia).
  - vm_compute. lia.
  - eexists. split; [exact Hr|].
    injection Hi as <-. repeat split; reflexivity.
Defined.

Lemma fetchPages_only_lists svc pn :
  forall fuel page acc,
    existsb is_storage_call (trace (fetchPages fuel svc pn page acc)) = false
    /\ existsb is_diff_request (trace (fetchPages fuel svc pn page acc))
       = false.
Proof.
  induction fuel as [|fuel IH]; intros page acc; [split; reflexivity|].
  cbn [fetchPages]. unfold log. rewrite bind_emit.
  destruct (pulls_listFiles (octokit svc) (svc_owner svc) (svc_repo svc) pn
                            PER_PAGE page) as [data|e].
  - rewrite bind_request_ok, bind_emit. cbn [trace fst existsb orb
      is_storage_call is_diff_request].
    destruct (List.length data <? PER_PAGE)%nat; [split; reflexivity|].
    apply IH.
  - rewrite bind_request_err. split; reflexivity.
Qed.

Lemma getPullRequestFiles_only_lists K fuel svc pn :
  existsb is_storage_call (trace (getPullRequestFiles K fuel svc pn)) = false
  /\ existsb is_diff_request (trace (getPullRequestFiles K fuel svc pn))
     = false.
Proof.
  destruct (fetchPages_only_lists svc pn fuel 1%nat []) as [Hs Hd].
  unfold getPullRequestFiles, log. rewrite bind_emit.
  destruct (fetchPages fuel svc pn 1 []) as [t [a|e|]];
    cbn [trace fst] in Hs, Hd;
    cbn [bind try_catch ret throw emit trace result_of fst snd app
         existsb orb is_storage_call is_diff_request];
    rewrite ?existsb_app, ?Hs, ?Hd; split; reflexivity.
Qed.

Lemma getPullRequest_calls K svc pn :
  calls (trace (getPullRequest K svc pn))
  = [PullsGet (svc_owner svc) (svc_repo svc) pn].
Proof.
  destruct (pulls_get (octokit svc) (svc_owner svc) (svc_repo svc) pn)
    as [data|e] eqn:Hd.
  - destruct (toPullRequestInfo data) as [info|e] eqn:Hi.
    + now rewrite (getPullRequest_returns K svc pn Hd Hi).
    + now rewrite (getPullRequest_rethrows_mapping K svc pn Hd Hi).
  - now rewrite (getPullRequest_rethrows_request K svc pn Hd).
Qed.

Lemma getPullRequest_quiet K svc pn :
  existsb is_storage_call (trace (getPullRequest K svc pn)) = false
  /\ existsb is_diff_request (trace (getPullRequest K svc pn)) = false
  /\ existsb is_listing_request (trace (getPullRequest K svc pn)) = false.
Proof.
  destruct (pulls_get (octokit svc) (svc_owner svc) (svc_repo svc) pn)
    as [data|e] eqn:Hd.
  - destruct (toPullRequestInfo data) as [info|e] eqn:Hi.
    + now rewrite (getPullRequest_returns K svc pn Hd Hi).
    + now rewrite (getPullRequest_rethrows_mapping K svc pn Hd Hi).
  - now rewrite (getPullRequest_rethrows_request K svc pn Hd).
Qed.

(** X14: performExtraction stops at the first step that raises.  When
    the metadata fetch raises (a failed request, or a response without
    head or base repository), performExtraction raises the same error
    and the only call made is the metadata request: no listing request,
    no diff request, no storage call.  When the files fetch raises, the
    same error is raised and neither a diff request nor a storage call
    is made.  When the files fetch does not finish, neither does the
    extraction, and again nothing is written. *)
Theorem performExtraction_short_circuit K env svc inputs fuel :
  let pn := pullNumber inputs in
  let run := performExtraction K env fuel (mkPRExtractor (Some svc)) inputs in
  (forall e,
     result_of (getPullRequest K svc pn) = Throw e ->
     result_of run = Throw e
     /\ calls (trace run) = [PullsGet (svc_owner svc) (svc_repo svc) pn])
  /\ (forall prData e,
        result_of (getPullRequest K svc pn) = Return prData ->
        result_of (getPullRequestFiles K fuel svc pn) = Throw e ->
        result_of run = Throw e
        /\ existsb is_storage_call (trace run) = false
        /\ existsb is_diff_request (trace run) = false)
  /\ (forall prData,
        result_of (getPullRequest K svc pn) = Return prData ->
        result_of (getPullRequestFiles K fuel svc pn) = Running ->
        result_of run = Running
        /\ existsb is_storage_call (trace run) = false
        /\ existsb is_diff_request (trace run) = false).
Proof.
  intros pn run. subst run. unfold performExtraction.
  cbn [githubService]. fold pn.
  destruct (getPullRequest_quiet K svc pn) as [Hms [Hmd _]].
  destruct (getPullRequestFiles_only_lists K fuel svc pn) as [Hs Hd].
  split; [|split].
  - intros e He. rewrite (bind_throw _ _ He).
    split; [reflexivity|]. apply getPullRequest_calls.
  - intros prData e Hp Hf.
    rewrite (bind_return _ _ Hp). cbn [trace result_of fst snd].
    rewrite (bind_throw _ _ Hf). cbn [trace result_of fst snd].
    rewrite !existsb_app, Hms, Hmd, Hs, Hd. repeat split; reflexivity.
  - intros prData Hp Hf.
    rewrite (bind_return _ _ Hp). cbn [trace result_of fst snd].
    destruct (getPullRequestFiles K fuel svc pn) as [t r].
    cbn [result_of snd trace fst] in *. subst r.
    cbn [bind trace result_of fst snd].
    rewrite !existsb_app, Hms, Hmd, Hs, Hd. repeat split; reflexivity.
Qed.

Lemma performExtraction_short_circuit_witness :
  result_of (performExtraction (sample_constants 1000)
               (sample_env (Ok orphan_client)) 5
               (mkPRExtractor (Some (sample_service orphan_client)))
               sample_inputs)
  = Throw (TypeError_reading "full_name")
  /\ calls (trace (performExtraction (sample_constants 1000)
                     (sample_env (Ok orphan_client)) 5
                     (mkPRExtractor (Some (sample_service orphan_client)))
                     sample_inputs))
     = [PullsGet (lit "o") (lit "r") (Some 42)].
Proof.
  apply (proj1 (@performExtraction_short_circuit (sample_constants 1000)
                  (sample_env (Ok orphan_client))
                  (sample_service orphan_client) sample_inputs 5)).
  reflexivity.
Defined.

(** ** The kind of token *)

Lemma startsWith_nth (p t : jsstring) :
  startsWith t p = true ->
  forall i, (i < List.length p)%nat -> nth i t 0%N = nth i p 0%N.
Proof.
  revert t. induction p as [|a p IH]; intros t H i Hi; [cbn in Hi; lia|].
  destruct t as [|b t]; [discriminate H|].
  cbn in H. apply andb_true_iff in H. destruct H as [Hab Hrest].
  apply N.eqb_eq in Hab. subst b.
  destruct i as [|i]; [reflexivity|].
  cbn [nth]. apply IH; [exact Hrest | cbn in Hi; lia].
Qed.

(** The third code unit of a token that starts with [p]. *)
Lemma startsWith_third (p t : jsstring) :
  startsWith t p = true -> (2 < List.length p)%nat ->
  nth 2 t 0%N = nth 2 p 0%N.
Proof. intros H Hp. now apply startsWith_nth. Qed.

(** X16: the five token prefixes exclude one another, so the order of
    the tests does not matter: each kind of token is reported exactly
    for the tokens that start with its prefix, and 'unknown' exactly for
    those that start with none of the five. *)
Theorem tokenType_by_prefix (token : jsstring) :
  (tokenType token = lit "personal_access_token"
   <-> startsWith token (lit "ghp_") = true)
  /\ (tokenType token = lit "server_to_server_token"
      <-> startsWith token (lit "ghs_") = true)
  /\ (tokenType token = lit "oauth_token"
      <-> startsWith token (lit "gho_") = true)
  /\ (tokenType token = lit "user_access_token"
      <-> startsWith token (lit "ghu_") = true)
  /\ (tokenType token = lit "fine_grained_token"
      <-> startsWith token (lit "github_pat_") = true)
  /\ (tokenType token = lit "unknown"
      <-> startsWith token (lit "ghp_") = false
          /\ startsWith token (lit "ghs_") = false
          /\ startsWith token (lit "gho_") = false
          /\ startsWith token (lit "ghu_") = false
          /\ startsWith token (lit "github_pat_") = false).
Proof.
  unfold tokenType.
  destruct (startsWith token (lit "ghp_")) eqn:Hp;
    destruct (startsWith token (lit "ghs_")) eqn:Hs;
    destruct (startsWith token (lit "gho_")) eqn:Ho;
    destruct (startsWith token (lit "ghu_")) eqn:Hu;
    destruct (startsWith token (lit "github_pat_")) eqn:Hf;
    try (apply startsWith_third in Hp; [|vm_compute; lia]);
    try (apply startsWith_third in Hs; [|vm_compute; lia]);
    try (apply startsWith_third in Ho; [|vm_compute; lia]);
    try (apply startsWith_third in Hu; [|vm_compute; lia]);
    try (apply startsWith_third in Hf; [|vm_compute; lia]);
    try (exfalso; vm_compute in *; congruence);
    repeat split; intros; try reflexivity;
    vm_compute in *; intuition congruence.
Qed.

(** ** Invariants of what is returned *)

Lemma authorLogin_not_empty (u : option UserData) : authorLogin u <> [].
Proof.
  unfold authorLogin.
  destruct u as [[[[|c l]|]]|]; cbn [ud_login truthy]; discriminate.
Qed.

(** X17: the author is never the empty string: neither in the record
    that getPullRequest returns nor in the record of an extraction,
    whatever the API sent as the user's login. *)
Theorem author_never_empty K env fuel svc pn extractor inputs :
  (forall info,
     result_of (getPullRequest K svc pn) = Return info ->
     user_login (user info) <> [])
  /\ (forall record,
        result_of (performExtraction K env fuel extractor inputs)
        = Return record ->
        prd_author record <> []).
Proof.
  assert (Hinfo : forall s p info,
            result_of (getPullRequest K s p) = Return info ->
            user_login (user info) <> []).
  { intros s p info Hr.
    destruct (pulls_get (octokit s) (svc_owner s) (svc_repo s) p)
      as [data|e] eqn:Hd.
    - rewrite (toPullRequestInfo_author _
                 (getPullRequest_inversion _ _ _ Hd Hr)).
      apply authorLogin_not_empty.
    - rewrite (getPullRequest_rethrows_request K s p Hd) in Hr.
      discriminate Hr. }
  split; [apply Hinfo|].
  intros record H. unfold performExtraction in H.
  destruct (githubService extractor) as [s|]; [|discriminate H].
  apply result_bind_inv in H. destruct H as [prData [Hpr H]].
  apply result_bind_inv in H. destruct H as [files [_ H]].
  apply result_bind_inv in H. destruct H as [path [_ H]].
  cbn in H. injection H as <-. cbn [assemble prd_author].
  now apply (Hinfo s (pullNumber inputs)).
Qed.

Lemma author_never_empty_witness :
  result_of (getPullRequest (sample_constants 1000)
               (sample_service short_client) (Some 42))
  = Return (mkPullRequestInfo 42 (lit "Fix bug") None (lit "open")
              (mkUserInfo (lit "alice"))
              (mkBranchInfo (lit "fix") (lit "abc123")
                 (mkRepoInfo (Some (lit "o/r")) (Some (lit "r"))
                             (mkOwnerInfo (Some (lit "o")))))
              (mkBranchInfo (lit "main") (lit "def456")
                 (mkRepoInfo (Some (lit "o/r")) (Some (lit "r"))
                             (mkOwnerInfo (Some (lit "o"))))))
  /\ lit "alice" <> [].
Proof.
  split; [reflexivity|].
  exact (proj1 (@author_never_empty (sample_constants 1000)
                  (sample_env (Ok short_client)) 5
                  (sample_service short_client) (Some 42)
                  (mkPRExtractor None) sample_inputs)
               _ eq_refl).
Defined.

Lemma not_storage_not_written (t : list Event) path written :
  existsb is_storage_call t = false -> ~ In (FsWriteFile path written) t.
Proof.
  intros H Hin.
  assert (Hex : existsb is_storage_call t = true).
  { apply existsb_exists. exists (FsWriteFile path written).
    split; [exact Hin | reflexivity]. }
  rewrite H in Hex. discriminate Hex.
Qed.

(** X18: an extraction writes a file only at its end.  If a run of
    performExtraction writes a file at all, then the metadata fetch and
    the files fetch of that run both returned, the pull number is
    defined, and what was written is the content of the fetched diff, at
    TEMP_DIR joined with the diff file name.  An extractor without
    adapter writes nothing. *)
Theorem performExtraction_writes_after_fetches K env fuel extractor inputs
        path written :
  In (FsWriteFile path written)
     (trace (performExtraction K env fuel extractor inputs)) ->
  exists svc prData files text n,
    githubService extractor = Some svc
    /\ result_of (getPullRequest K svc (pullNumber inputs)) = Return prData
    /\ result_of (getPullRequestFiles K fuel svc (pullNumber inputs))
       = Return files
    /\ pulls_get_diff (octokit svc) (svc_owner svc) (svc_repo svc)
                      (pullNumber inputs) = Ok text
    /\ pullNumber inputs = Some n
    /\ written = content (toPullRequestDiff (MAX_DIFF_SIZE K) text)
    /\ path = path_join env (TEMP_DIR K) (diffFileName K n).
Proof.
  unfold performExtraction. intros Hin.
  destruct (githubService extractor) as [svc|]; [|contradiction Hin].
  set (pn := pullNumber inputs) in *.
  destruct (getPullRequest_quiet K svc pn) as [Hms _].
  destruct (getPullRequestFiles_only_lists K fuel svc pn) as [Hfs _].
  rewrite trace_bind in Hin. apply in_app_or in Hin.
  destruct Hin as [Hin|Hin];
    [now apply (not_storage_not_written _ _ _ Hms) in Hin|].
  destruct (result_of (getPullRequest K svc pn)) as [prData| |] eqn:Hp;
    try contradiction Hin.
  rewrite trace_bind in Hin. apply in_app_or in Hin.
  destruct Hin as [Hin|Hin];
    [now apply (not_storage_not_written _ _ _ Hfs) in Hin|].
  destruct (result_of (getPullRequestFiles K fuel svc pn))
    as [files| |] eqn:Hf; try contradiction Hin.
  rewrite trace_bind in Hin. apply in_app_or in Hin.
  destruct Hin as [Hin|Hin].
  - destruct (writeDiffFile_write_inv _ _ _ _ _ _ Hin)
      as [text [n [Hd [Hn [_ [Hw Hpath]]]]]].
    exists svc, prData, files, text, n. repeat split; assumption.
  - destruct (result_of (writeDiffFile K env pn svc)); try contradiction Hin.
    cbn in Hin. destruct Hin as [Hin|Hin]; [discriminate Hin | contradiction].
Qed.

Lemma performExtraction_writes_after_fetches_witness :
  exists svc prData files text n,
    githubService (mkPRExtractor (Some (sample_service short_client)))
    = Some svc
    /\ result_of (getPullRequest (sample_constants 1000) svc
                    (pullNumber sample_inputs)) = Return prData
    /\ result_of (getPullRequestFiles (sample_constants 1000) 5 svc
                    (pullNumber sample_inputs)) = Return files
    /\ pulls_get_diff (octokit svc) (svc_owner svc) (svc_repo svc)
                      (pullNumber sample_inputs) = Ok text
    /\ pullNumber sample_inputs = Some n
    /\ lit "diff --git a/a.ts b/a.ts"
       = content (toPullRequestDiff (MAX_DIFF_SIZE (sample_constants 1000))
                                    text)
    /\ lit "/tmp/augment/pr-42.diff"
       = path_join (sample_env (Ok short_client))
                   (TEMP_DIR (sample_constants 1000))
                   (diffFileName (sample_constants 1000) n).
Proof.
  apply (@performExtraction_writes_after_fetches (sample_constants 1000)
           (sample_env (Ok short_client)) 5
           (mkPRExtractor (Some (sample_service short_client)))
           sample_inputs).
  vm_compute. tauto.
Defined.
